(** * Shift bot: a shallow embedding of the gateway, the parsers and the
      conversation handlers, with the properties of the specification.

    Sources embedded here:
    - [src/bot/utils.py]      value parsing and formatting,
    - [src/bot/sheets.py]     the spreadsheet gateway ([SheetsGateway]),
    - [src/bot/__main__.py]   the authorization registry, phone sanitization
                              and the message handlers,
    - [src/bot/states.py], [src/bot/keyboards.py]  the state groups and keyboards.

    Python text is modelled by its UTF-8 encoding, a byte string: the
    Cyrillic constants of the program are kept verbatim, and the operations
    that look at characters ([len], [strip], [isdigit], the classes [\d] and
    [\s], the digits read by [int], [float] and [strptime]) decode it and use
    the character classes of Unicode 14.0, the version of Python 3.11.  Python
    floats are IEEE binary64 values ([PrimFloat.float]); Python integers are
    [Z]. *)

From Stdlib Require Import ZArith String Ascii List Bool Lia Floats.
From Stdlib Require Import DecimalString.
From stdpp Require Import base option list gmap strings.

Local Open Scope string_scope.
Local Open Scope Z_scope.
Local Open Scope list_scope.

(** ** Exceptions and fallible results *)

Module Py.

Inductive exn : Type :=
| ValueError | TypeError | OverflowError | AttributeError | KeyError.

Inductive result (A : Type) : Type :=
| Ok (a : A)
| Raise (e : exn).
Arguments Ok {A} a.
Arguments Raise {A} e.

#[export] Instance result_ret : MRet result := fun A a => Ok a.
#[export] Instance result_bind : MBind result := fun A B f m =>
  match m with
  | Ok a => f a
  | Raise e => Raise e
  end.

Definition is_ok {A} (r : result A) : bool :=
  match r with Ok _ => true | Raise _ => false end.

(** [try: ... except (TypeError, ValueError): default] *)
Definition except_type_value {A} (r : result A) (default : A) : result A :=
  match r with
  | Ok a => Ok a
  | Raise TypeError | Raise ValueError => Ok default
  | Raise e => Raise e
  end.

(** ** Text *)

(** The bytes of each character of a text: a byte that is not a continuation
    byte (10xxxxxx) starts a character. *)
Definition is_continuation (c : ascii) : bool :=
  let n := nat_of_ascii c in (128 <=? n)%nat && (n <? 192)%nat.

Fixpoint chars (s : string) : list string :=
  match s with
  | EmptyString => []
  | String c s' =>
      match chars s' with
      | String c' ch :: rest =>
          if is_continuation c' then String c (String c' ch) :: rest
          else String c EmptyString :: String c' ch :: rest
      | _ => [String c EmptyString]
      end
  end.

(** The text made of the given characters. *)
Fixpoint unchars (l : list string) : string :=
  match l with
  | [] => EmptyString
  | ch :: l' => String.append ch (unchars l')
  end.

(** [len(s)]: the number of characters. *)
Definition len (s : string) : nat := length (chars s).

(** The code point encoded by the bytes of a character. *)
Definition code_point (ch : string) : N :=
  match ch with
  | EmptyString => 0%N
  | String c cont =>
      let n := N_of_ascii c in
      let lead := if (n <? 128)%N then n
                  else if (n <? 224)%N then N.land n 31
                  else if (n <? 240)%N then N.land n 15
                  else N.land n 7 in
      fold_left (fun acc b => (64 * acc + N.land (N_of_ascii b) 63)%N)
                (list_ascii_of_string cont) lead
  end.

Definition code_points (s : string) : list N := map code_point (chars s).

Definition in_ranges (n : N) (ranges : list (N * N)) : bool :=
  existsb (fun r => (fst r <=? n)%N && (n <=? snd r)%N) ranges.

(** White space: the characters of [str.isspace] and of the class [\s]. *)
Definition whitespace : list (N * N) :=
  [ (9, 13); (28, 32); (133, 133); (160, 160); (5760, 5760); (8192, 8202); (8232, 8233);
    (8239, 8239); (8287, 8287); (12288, 12288) ]%N.

Definition is_whitespace (n : N) : bool := in_ranges n whitespace.

(** The zeros of the decimal digits (general category Nd); the nine other
    digits of a script follow its zero in order. *)
Definition decimal_zeros : list N :=
  [ 48; 1632; 1776; 1984; 2406; 2534; 2662; 2790; 2918; 3046; 3174; 3302; 3430; 3558;
    3664; 3792; 3872; 4160; 4240; 6112; 6160; 6470; 6608; 6784; 6800; 6992; 7088; 7232;
    7248; 42528; 43216; 43264; 43472; 43504; 43600; 44016; 65296; 66720; 68912; 69734;
    69872; 69942; 70096; 70384; 70736; 70864; 71248; 71360; 71472; 71904; 72016; 72784;
    73040; 73120; 92768; 92864; 93008; 120782; 120792; 120802; 120812; 120822; 123200;
    123632; 125264; 130032 ]%N.

(** The value of a decimal digit; [None] for any other character. *)
Definition decimal (n : N) : option N :=
  option_map (fun z => (n - z)%N)
             (find (fun z => (z <=? n)%N && (n <? z + 10)%N) decimal_zeros).

(** The class [\d] of a regular expression on text. *)
Definition is_decimal (n : N) : bool :=
  match decimal n with Some _ => true | None => false end.

(** The characters of [str.isdigit]: the decimal digits and the other
    characters with a digit value (superscripts, circled digits, ...). *)
Definition digit_ranges : list (N * N) :=
  [ (48, 57); (178, 179); (185, 185); (1632, 1641); (1776, 1785); (1984, 1993);
    (2406, 2415); (2534, 2543); (2662, 2671); (2790, 2799); (2918, 2927); (3046, 3055);
    (3174, 3183); (3302, 3311); (3430, 3439); (3558, 3567); (3664, 3673); (3792, 3801);
    (3872, 3881); (4160, 4169); (4240, 4249); (4969, 4977); (6112, 6121); (6160, 6169);
    (6470, 6479); (6608, 6618); (6784, 6793); (6800, 6809); (6992, 7001); (7088, 7097);
    (7232, 7241); (7248, 7257); (8304, 8304); (8308, 8313); (8320, 8329); (9312, 9320);
    (9332, 9340); (9352, 9360); (9450, 9450); (9461, 9469); (9471, 9471);
    (10102, 10110); (10112, 10120); (10122, 10130); (42528, 42537); (43216, 43225);
    (43264, 43273); (43472, 43481); (43504, 43513); (43600, 43609); (44016, 44025);
    (65296, 65305); (66720, 66729); (68160, 68163); (68912, 68921); (69216, 69224);
    (69714, 69722); (69734, 69743); (69872, 69881); (69942, 69951); (70096, 70105);
    (70384, 70393); (70736, 70745); (70864, 70873); (71248, 71257); (71360, 71369);
    (71472, 71481); (71904, 71913); (72016, 72025); (72784, 72793); (73040, 73049);
    (73120, 73129); (92768, 92777); (92864, 92873); (93008, 93017); (120782, 120831);
    (123200, 123209); (123632, 123641); (125264, 125273); (127232, 127242);
    (130032, 130041) ]%N.

(** [str.isdigit()] *)
Definition isdigit (s : string) : bool :=
  negb (String.eqb s "") && forallb (fun n => in_ranges n digit_ranges) (code_points s).

Definition is_space_char (ch : string) : bool := is_whitespace (code_point ch).

Fixpoint lstrip_chars (l : list string) : list string :=
  match l with
  | ch :: l' => if is_space_char ch then lstrip_chars l' else l
  | [] => []
  end.

Definition rstrip_chars (l : list string) : list string := rev (lstrip_chars (rev l)).

(** [str.strip()] *)
Definition strip (s : string) : string := unchars (rstrip_chars (lstrip_chars (chars s))).

(** [str.replace(a, b)] for one-character ASCII [a] and [b]. *)
Fixpoint replace_char (a b : ascii) (s : string) : string :=
  match s with
  | String c s' => String (if Ascii.eqb c a then b else c) (replace_char a b s')
  | EmptyString => EmptyString
  end.

(** [re.sub(r"[^\d]", "", s)]: the decimal digits of the text. *)
Definition digits_only (s : string) : string :=
  unchars (filter (fun ch => is_decimal (code_point ch)) (chars s)).

(** The ASCII digits, and the white space of the C locale, that the number
    parsers of the interpreter read. *)
Definition is_digit (c : ascii) : bool :=
  let n := nat_of_ascii c in (48 <=? n)%nat && (n <=? 57)%nat.

Definition digit_val (c : ascii) : nat := nat_of_ascii c - 48.

Definition digit_char (n : nat) : ascii := ascii_of_nat (48 + n).

Definition is_c_space (c : ascii) : bool :=
  let n := nat_of_ascii c in ((9 <=? n)%nat && (n <=? 13)%nat) || (n =? 32)%nat.

Fixpoint lstrip (l : list ascii) : list ascii :=
  match l with
  | c :: l' => if is_c_space c then lstrip l' else l
  | [] => []
  end.

Definition c_strip (l : list ascii) : list ascii := rev (lstrip (rev (lstrip l))).

(** What [float] and [int] read of a text: ASCII text as it is; otherwise
    each character below 127 as it is, white space as a space, a decimal
    digit as its ASCII digit, and a question mark that ends the text for the
    first character that is none of these. *)
Fixpoint to_ascii_digits (l : list N) : list ascii :=
  match l with
  | [] => []
  | n :: l' =>
      if (n <? 127)%N then ascii_of_N n :: to_ascii_digits l'
      else if is_whitespace n then " "%char :: to_ascii_digits l'
      else
        match decimal n with
        | Some v => ascii_of_N (48 + v) :: to_ascii_digits l'
        | None => ["?"%char]
        end
  end.

Definition number_text (s : string) : list ascii :=
  let l := code_points s in
  if forallb (fun n => (n <? 128)%N) l then list_ascii_of_string s else to_ascii_digits l.

(** [s.startswith(p)] *)
Fixpoint startswith (s p : string) {struct p} : bool :=
  match p with
  | EmptyString => true
  | String b p' =>
      match s with
      | String a s' => Ascii.eqb a b && startswith s' p'
      | EmptyString => false
      end
  end.

(** [str.lower()], exact on ASCII and on the basic Cyrillic block
    (U+0400..U+042F, two UTF-8 bytes starting with 0xD0); other text is left
    as it is. *)
Fixpoint lower (s : string) : string :=
  match s with
  | String c s' =>
      let n := nat_of_ascii c in
      if ((65 <=? n)%nat && (n <=? 90)%nat) then String (ascii_of_nat (n + 32)) (lower s')
      else
        match s' with
        | String c2 s'' =>
            let m := nat_of_ascii c2 in
            if (n =? 208)%nat then
              if ((128 <=? m)%nat && (m <=? 143)%nat)
              then String (ascii_of_nat 209) (String (ascii_of_nat (m + 16)) (lower s''))
              else if ((144 <=? m)%nat && (m <=? 159)%nat)
              then String c (String (ascii_of_nat (m + 32)) (lower s''))
              else if ((160 <=? m)%nat && (m <=? 175)%nat)
              then String (ascii_of_nat 209) (String (ascii_of_nat (m - 32)) (lower s''))
              else String c (String c2 (lower s''))
            else String c (lower s')
        | EmptyString => String c EmptyString
        end
  | EmptyString => EmptyString
  end.

(** [str(n)] for an integer. *)
Definition str_of_Z (z : Z) : string := NilZero.string_of_int (Z.to_int z).

(** ** Values held by spreadsheet cells and by the conversation data *)

Inductive pyval : Type :=
| VNone
| VStr (s : string)
| VInt (z : Z)
| VFloat (f : float).

(** Truth value of an object ([if val], [x or y]). *)
Definition truthy (v : pyval) : bool :=
  match v with
  | VNone => false
  | VStr s => negb (String.eqb s "")
  | VInt z => negb (z =? 0)
  | VFloat f => negb (PrimFloat.eqb f 0%float)
  end.

(** ** Floats: [float(x)] and [int(x)] *)

Definition float_of_SF (x : spec_float) : float := SF2Prim x.

(** The binary64 value nearest to [m * 10 ^ e] (ties to even); the quotient of
    a negative exponent is taken with 64 bits to spare and a sticky bit. *)
Definition float_of_decimal (neg : bool) (m : Z) (e : Z) : float :=
  if m =? 0 then (if neg then (-0)%float else 0%float)
  else
    let sm := if neg then - m else m in
    if 0 <=? e then float_of_SF (binary_normalize prec emax (sm * 10 ^ e) 0 false)
    else
      let d := 10 ^ (- e) in
      let k := Z.max 0 (64 + Z.log2 d - Z.log2 m) in
      let n := m * 2 ^ k in
      let q := n / d in
      let sticky := if (n mod d) =? 0 then 0 else 1 in
      let mq := 2 * q + sticky in
      float_of_SF (binary_normalize prec emax (if neg then - mq else mq) (- (k + 1)) false).

Fixpoint span_digits (l : list ascii) : list ascii * list ascii :=
  match l with
  | c :: l' =>
      if is_digit c then let '(ds, r) := span_digits l' in (c :: ds, r) else ([], l)
  | [] => ([], [])
  end.

Definition digits_to_Z (ds : list ascii) : Z :=
  fold_left (fun acc c => 10 * acc + Z.of_nat (digit_val c)) ds 0.

(** Underscores of a numeric literal: allowed only between two digits;
    returns the text without them. *)
Fixpoint strip_underscores (prev : option ascii) (l : list ascii) : option (list ascii) :=
  match l with
  | [] => match prev with
          | Some "_"%char => None
          | _ => Some []
          end
  | c :: l' =>
      if Ascii.eqb c "_" then
        match prev with
        | Some p => if is_digit p then strip_underscores (Some c) l' else None
        | None => None
        end
      else
        match prev with
        | Some "_"%char =>
            if is_digit c then option_map (cons c) (strip_underscores (Some c) l') else None
        | _ => option_map (cons c) (strip_underscores (Some c) l')
        end
  end.

Definition take_sign (l : list ascii) : bool * list ascii :=
  match l with
  | "-"%char :: l' => (true, l')
  | "+"%char :: l' => (false, l')
  | _ => (false, l)
  end.

(** The decimal part of the float grammar: digits, optional point, digits,
    optional exponent; the result is the mantissa, the decimal exponent and
    the unread text.  An ["e"] that no digit follows is left unread. *)
Definition parse_decimal (l : list ascii) : option (Z * Z * list ascii) :=
  let '(ip, r1) := span_digits l in
  let '(fp, r2) :=
    match r1 with
    | "."%char :: r => span_digits r
    | _ => ([], r1)
    end in
  match ip ++ fp with
  | [] => None
  | ds =>
      let m := digits_to_Z ds in
      let fl := Z.of_nat (length fp) in
      match r2 with
      | c :: r3 =>
          if Ascii.eqb c "e" || Ascii.eqb c "E" then
            let '(eneg, r4) := take_sign r3 in
            let '(ed, r5) := span_digits r4 in
            match ed with
            | [] => Some (m, - fl, r2)
            | _ => Some (m, (if eneg then - digits_to_Z ed else digits_to_Z ed) - fl, r5)
            end
          else Some (m, - fl, r2)
      | [] => Some (m, - fl, [])
      end
  end.

Definition lower_ascii (c : ascii) : ascii :=
  let n := nat_of_ascii c in
  if ((65 <=? n)%nat && (n <=? 90)%nat) then ascii_of_nat (n + 32) else c.

(** ["inf"], ["infinity"] and ["nan"], in any letter case. *)
Definition parse_inf_or_nan (neg : bool) (l : list ascii) : option (float * list ascii) :=
  match map lower_ascii l with
  | "i" :: "n" :: "f" :: "i" :: "n" :: "i" :: "t" :: "y" :: _ =>
      Some (if neg then neg_infinity else infinity, skipn 8 l)
  | "i" :: "n" :: "f" :: _ => Some (if neg then neg_infinity else infinity, skipn 3 l)
  | "n" :: "a" :: "n" :: _ => Some (nan, skipn 3 l)
  | _ => None
  end%char.

(** [float(s)] for a string; [None] stands for ValueError. *)
Definition float_of_string (s : string) : option float :=
  match strip_underscores None (number_text s) with
  | None => None
  | Some l =>
      let body := c_strip l in
      let '(neg, r) := take_sign body in
      match parse_decimal r with
      | Some (m, e, []) => Some (float_of_decimal neg m e)
      | Some (_, _, _ :: _) => None
      | None =>
          match parse_inf_or_nan neg r with
          | Some (f, []) => Some f
          | _ => None
          end
      end
  end.

(** [float(n)] for an integer: the nearest binary64 value, OverflowError when
    it is not finite. *)
Definition float_of_Z (z : Z) : result float :=
  let f := float_of_SF (binary_normalize prec emax z 0 false) in
  if PrimFloat.is_infinity f then Raise OverflowError else Ok f.

(** [float(v)] *)
Definition py_float (v : pyval) : result float :=
  match v with
  | VNone => Raise TypeError
  | VStr s => match float_of_string s with
              | Some f => Ok f
              | None => Raise ValueError
              end
  | VInt z => float_of_Z z
  | VFloat f => Ok f
  end.

(** [int(f)] for a float: truncation towards zero; ValueError on NaN,
    OverflowError on an infinity. *)
Definition py_int_of_float (f : float) : result Z :=
  match Prim2SF f with
  | S754_zero _ => Ok 0
  | S754_nan => Raise ValueError
  | S754_infinity _ => Raise OverflowError
  | S754_finite s m e =>
      let a := if 0 <=? e then Z.pos m * 2 ^ e else Z.pos m / 2 ^ (- e) in
      Ok (if s then - a else a)
  end.

(** ** Dates: [datetime.date], [datetime.datetime], [timedelta] days *)

Record date : Type := mkdate { year : Z; month : Z; day : Z }.

(** [tzinfo] is the zone name of an aware value, [None] for a naive one. *)
Record datetime : Type := mkdatetime {
  dt_date : date;
  hour : Z;
  minute : Z;
  second : Z;
  microsecond : Z;
  tzinfo : option string
}.

Definition is_leap (y : Z) : bool :=
  (y mod 4 =? 0) && (negb (y mod 100 =? 0) || (y mod 400 =? 0)).

Definition days_in_month (y m : Z) : Z :=
  match m with
  | 1 | 3 | 5 | 7 | 8 | 10 | 12 => 31
  | 4 | 6 | 9 | 11 => 30
  | 2 => if is_leap y then 29 else 28
  | _ => -1
  end.

Definition MINYEAR : Z := 1.
Definition MAXYEAR : Z := 9999.

(** The check made by the [date] constructor. *)
Definition valid_date (d : date) : bool :=
  (MINYEAR <=? year d) && (year d <=? MAXYEAR) && (1 <=? month d) && (month d <=? 12)
  && (1 <=? day d) && (day d <=? days_in_month (year d) (month d)).

Definition days_before_year (y : Z) : Z :=
  let y1 := y - 1 in y1 * 365 + y1 / 4 - y1 / 100 + y1 / 400.

Definition days_before_month_tbl (m : Z) : Z :=
  match m with
  | 1 => 0 | 2 => 31 | 3 => 59 | 4 => 90 | 5 => 120 | 6 => 151
  | 7 => 181 | 8 => 212 | 9 => 243 | 10 => 273 | 11 => 304 | 12 => 334
  | _ => -1
  end.

Definition days_before_month (y m : Z) : Z :=
  days_before_month_tbl m + (if (2 <? m) && is_leap y then 1 else 0).

(** [date.toordinal()] *)
Definition toordinal (d : date) : Z :=
  days_before_year (year d) + days_before_month (year d) (month d) + day d.

Definition DI400Y : Z := 146097.
Definition DI100Y : Z := 36524.
Definition DI4Y : Z := 1461.
Definition MAXORDINAL : Z := 3652059.

(** [date.fromordinal(n)], for [1 <= n <= MAXORDINAL]. *)
Definition fromordinal (n : Z) : date :=
  let n := n - 1 in
  let n400 := n / DI400Y in let n := n mod DI400Y in
  let n100 := n / DI100Y in let n := n mod DI100Y in
  let n4 := n / DI4Y in let n := n mod DI4Y in
  let n1 := n / 365 in let n := n mod 365 in
  let y := n400 * 400 + 1 + n100 * 100 + n4 * 4 + n1 in
  if (n1 =? 4) || (n100 =? 4) then mkdate (y - 1) 12 31
  else
    let leapyear := (n1 =? 3) && (negb (n4 =? 24) || (n100 =? 3)) in
    let m := Z.shiftr (n + 50) 5 in
    let preceding := days_before_month_tbl m + (if (2 <? m) && leapyear then 1 else 0) in
    if n <? preceding then
      let m' := m - 1 in
      let dim := if (m' =? 2) && leapyear then 29 else days_in_month 1 m' in
      mkdate y m' (n - (preceding - dim) + 1)
    else mkdate y m (n - preceding + 1).

(** [d - timedelta(days=n)] *)
Definition date_sub_days (d : date) (n : Z) : result date :=
  if (n <? -999999999) || (999999999 <? n) then Raise OverflowError
  else
    let o := toordinal d - n in
    if (0 <? o) && (o <=? MAXORDINAL) then Ok (fromordinal o) else Raise OverflowError.

(** [a < b] on dates: lexicographic on year, month, day. *)
Definition date_ltb (a b : date) : bool :=
  (year a <? year b)
  || ((year a =? year b) && ((month a <? month b)
      || ((month a =? month b) && (day a <? day b)))).

(** [datetime.date()] *)
Definition date_of (t : datetime) : date := dt_date t.

(** *** [strftime] and [strptime] for the directives the program uses *)

Definition digit_of_Z (n : Z) : ascii := digit_char (Z.to_nat n).

Definition pad2 (n : Z) : list ascii := [digit_of_Z (n / 10); digit_of_Z (n mod 10)].

(** [%Y]: the year in decimal, without padding (years below 1000 print short). *)
Definition fmt_year (y : Z) : list ascii :=
  if y <? 10 then [digit_of_Z y]
  else if y <? 100 then pad2 y
  else if y <? 1000 then digit_of_Z (y / 100) :: pad2 (y mod 100)
  else pad2 (y / 100) ++ pad2 (y mod 100).

Fixpoint strftime_chars (fmt : list ascii) (t : datetime) : list ascii :=
  match fmt with
  | "%"%char :: c :: fmt' =>
      (if Ascii.eqb c "d" then pad2 (day (dt_date t))
       else if Ascii.eqb c "m" then pad2 (month (dt_date t))
       else if Ascii.eqb c "Y" then fmt_year (year (dt_date t))
       else if Ascii.eqb c "H" then pad2 (hour t)
       else if Ascii.eqb c "M" then pad2 (minute t)
       else ["%"%char; c]) ++ strftime_chars fmt' t
  | c :: fmt' => c :: strftime_chars fmt' t
  | [] => []
  end.

(** [datetime.strftime(fmt)] *)
Definition strftime (t : datetime) (fmt : string) : string :=
  string_of_list_ascii (strftime_chars (list_ascii_of_string fmt) t).

Definition midnight (d : date) : datetime := mkdatetime d 0 0 0 0 None.

(** [date.strftime(fmt)] *)
Definition date_strftime (d : date) (fmt : string) : string := strftime (midnight d) fmt.

(** The pieces of a [strptime] pattern. *)
Inductive directive : Type :=
| D_d | D_m | D_Y | D_H | D_M
| D_space
| D_lit (c : ascii).

(** Translation of a format string: a run of white space becomes one
    [D_space] (the [\s+] of the pattern); an unknown directive is an error. *)
Fixpoint compile_format (after_space : bool) (fmt : list ascii) : option (list directive) :=
  match fmt with
  | [] => Some []
  | "%"%char :: c :: fmt' =>
      let k := if Ascii.eqb c "d" then Some D_d
               else if Ascii.eqb c "m" then Some D_m
               else if Ascii.eqb c "Y" then Some D_Y
               else if Ascii.eqb c "H" then Some D_H
               else if Ascii.eqb c "M" then Some D_M
               else None in
      match k, compile_format false fmt' with
      | Some d, Some ds => Some (d :: ds)
      | _, _ => None
      end
  | c :: fmt' =>
      if is_whitespace (N_of_ascii c) then
        if after_space then compile_format true fmt'
        else option_map (cons D_space) (compile_format true fmt')
      else option_map (cons (D_lit c)) (compile_format false fmt')
  end.

(** The groups found by a match; the defaults are those of [strptime]. *)
Record found : Type := mkfound { f_Y : Z; f_m : Z; f_d : Z; f_H : Z; f_M : Z }.

Definition found_default : found := mkfound 1900 1 1 0 0.

Definition set_group (d : directive) (v : Z) (f : found) : found :=
  match d with
  | D_d => mkfound (f_Y f) (f_m f) v (f_H f) (f_M f)
  | D_m => mkfound (f_Y f) v (f_d f) (f_H f) (f_M f)
  | D_Y => mkfound v (f_m f) (f_d f) (f_H f) (f_M f)
  | D_H => mkfound (f_Y f) (f_m f) (f_d f) v (f_M f)
  | D_M => mkfound (f_Y f) (f_m f) (f_d f) (f_H f) v
  | _ => f
  end.

(** The value [int] gives a digit that the pattern has matched. *)
Definition dv (n : N) : Z :=
  match decimal n with Some v => Z.of_N v | None => 0 end.

(** The class [[lo-hi]] of ASCII digits. *)
Definition in_range (lo hi : N) (n : N) : bool :=
  ((48 + lo <=? n) && (n <=? 48 + hi))%N.

(** One alternative of two characters, and one of a single character. *)
Definition alt2 (p1 p2 : N -> bool) (l : list N) : list (Z * list N) :=
  match l with
  | c1 :: c2 :: r => if p1 c1 && p2 c2 then [(10 * dv c1 + dv c2, r)] else []
  | _ => []
  end.

Definition alt1 (p : N -> bool) (l : list N) : list (Z * list N) :=
  match l with
  | c :: r => if p c then [(dv c, r)] else []
  | _ => []
  end.

(** The non-empty prefixes of the leading white space, longest first. *)
Fixpoint space_runs (l : list N) : list (list N) :=
  match l with
  | c :: r => if is_whitespace c then space_runs r ++ [r] else []
  | [] => []
  end.

(** The ways one directive can match at the head of the text, in the order
    the regular expression tries them:
    [%d] is [3[0-1]|[1-2]\d|0[1-9]|[1-9]| [1-9]], [%m] is [1[0-2]|0[1-9]|[1-9]],
    [%Y] is [\d\d\d\d], [%H] is [2[0-3]|[0-1]\d|\d], [%M] is [[0-5]\d|\d]. *)
Definition step (d : directive) (l : list N) : list (Z * list N) :=
  match d with
  | D_d => alt2 (in_range 3 3) (in_range 0 1) l ++ alt2 (in_range 1 2) is_decimal l
           ++ alt2 (in_range 0 0) (in_range 1 9) l ++ alt1 (in_range 1 9) l
           ++ match l with
              | 32%N :: c :: r => if in_range 1 9 c then [(dv c, r)] else []
              | _ => []
              end
  | D_m => alt2 (in_range 1 1) (in_range 0 2) l ++ alt2 (in_range 0 0) (in_range 1 9) l
           ++ alt1 (in_range 1 9) l
  | D_Y => match l with
           | c1 :: c2 :: c3 :: c4 :: r =>
               if is_decimal c1 && is_decimal c2 && is_decimal c3 && is_decimal c4
               then [(1000 * dv c1 + 100 * dv c2 + 10 * dv c3 + dv c4, r)] else []
           | _ => []
           end
  | D_H => alt2 (in_range 2 2) (in_range 0 3) l ++ alt2 (in_range 0 1) is_decimal l
           ++ alt1 is_decimal l
  | D_M => alt2 (in_range 0 5) is_decimal l ++ alt1 is_decimal l
  | D_space => map (fun r => (0, r)) (space_runs l)
  | D_lit c => match l with
               | c' :: r => if (c' =? N_of_ascii c)%N then [(0, r)] else []
               | [] => []
               end
  end.

(** All matches of a pattern at the head of the text, in backtracking order;
    the match the regular expression reports is the first one. *)
Fixpoint matches (fmt : list directive) (l : list N) (f : found)
  : list (found * list N) :=
  match fmt with
  | [] => [(f, l)]
  | d :: fmt' =>
      flat_map (fun '(v, r) => matches fmt' r (set_group d v f)) (step d l)
  end.

(** [datetime.strptime(text, fmt)]: the first match must consume the whole
    text, and the fields must make a date; anything else is ValueError. *)
Definition strptime (text fmt : string) : result datetime :=
  match compile_format false (list_ascii_of_string fmt) with
  | None => Raise ValueError
  | Some ds =>
      match matches ds (code_points text) found_default with
      | (f, []) :: _ =>
          let d := mkdate (f_Y f) (f_m f) (f_d f) in
          if valid_date d then Ok (mkdatetime d (f_H f) (f_M f) 0 0 None)
          else Raise ValueError
      | _ => Raise ValueError
      end
  end.

(** [str(v)]: the decimal text of a float ([repr]) is left to an interface;
    nothing below depends on which digits it prints. *)
Class FloatRepr : Type := float_repr : float -> string.

Definition py_str `{FloatRepr} (v : pyval) : string :=
  match v with
  | VNone => "None"
  | VStr s => s
  | VInt z => str_of_Z z
  | VFloat f => float_repr f
  end.

(** A loop whose body may raise: the results in order, or the first exception. *)
Fixpoint traverse {A B} (f : A -> result B) (l : list A) : result (list B) :=
  match l with
  | [] => Ok []
  | a :: l' =>
      match f a with
      | Ok b => match traverse f l' with
                | Ok bs => Ok (b :: bs)
                | Raise e => Raise e
                end
      | Raise e => Raise e
      end
  end.

End Py.
Export Py.

(** * [utils.py] *)

Module Utils.
Section WithRepr.
Context `{FloatRepr}.

Definition DATE_FORMAT : string := "%d.%m.%Y".
Definition DATETIME_FORMAT : string := "%d.%m.%Y %H:%M".

Definition formats : list string :=
  [DATETIME_FORMAT; "%d.%m.%Y"; "%Y-%m-%d"; "%d-%m-%Y"; "%Y.%m.%d"].

(** The loop of [parse_date]: the first format that parses the text. *)
Fixpoint first_format (text : string) (fmts : list string) : option datetime :=
  match fmts with
  | [] => None
  | fmt :: fmts' =>
      match strptime text fmt with
      | Ok parsed => Some parsed
      | Raise _ => first_format text fmts'
      end
  end.

(** [parse_date(value, datetime_mode=True)] *)
Definition parse_date_time (value : pyval) : option datetime :=
  match value with
  | VNone => None
  | _ =>
      let text := strip (py_str value) in
      if String.eqb text "" then None else first_format text formats
  end.

(** [parse_date(value)], that is [datetime_mode=False]: the date of the parse. *)
Definition parse_date (value : pyval) : option date :=
  option_map date_of (parse_date_time value).

Definition format_date (value : date) : string := date_strftime value DATE_FORMAT.

Definition format_datetime (value : datetime) : string := strftime value DATETIME_FORMAT.

Definition parse_float (value : pyval) : result float :=
  except_type_value (py_float value) 0%float.

Definition parse_int (value : pyval) : result (option Z) :=
  except_type_value (f ← py_float value; n ← py_int_of_float f; Ok (Some n)) None.

Definition parse_user_date (text : string) : option date := parse_date (VStr text).

(** [parse_hours(text)]; the outer [None] is the "invalid" result. *)
Definition parse_hours (text : option string) : option float :=
  match text with
  | None => None
  | Some text =>
      let normalized := strip (replace_char "," "." text) in
      match float_of_string normalized with
      | None => None
      | Some value => if PrimFloat.ltb value 0 then None else Some value
      end
  end.

End WithRepr.
End Utils.
Export Utils.
(** * [sheets.py] *)

Module Sheets.

Definition SHIFT_STATUS_PENDING : string := "Очікує".
Definition SHIFT_STATUS_APPROVED : string := "Підтверджено".
Definition SHIFT_STATUS_DECLINED : string := "Відхилено".

Record Employee : Type := mkEmployee {
  name : string;
  phone : string;
  role : string;
  shift_rate : float;
  overtime_rate : float;
  emp_manager_name : option string
}.

Definition is_manager (e : Employee) : bool := String.eqb (lower (role e)) "керівник".

Record ShiftInput : Type := mkShiftInput {
  in_employee_name : string;
  in_shift_date : date;
  in_shift_hours : float;
  in_overtime_hours : float;
  in_comment : string;
  in_submitted_at : datetime;
  in_manager_name : option string
}.

Record ShiftRecord : Type := mkShiftRecord {
  row_index : Z;
  shift_id : Z;
  employee_name : string;
  shift_date : date;
  overtime_hours : float;
  shift_hours : float;
  comment : string;
  submitted_at : option datetime;
  status : string;
  approved_at : option datetime;
  manager_comment : option string;
  manager_name : option string
}.

(** ** The store

    The store collaborator (the Google worksheets behind [gspread]) is
    outside the repository.  It is taken to keep the cells it is given and to
    hand them back unchanged (section 6 of the specification: the fields
    round-trip losslessly through it).  A worksheet is its rows below the
    header line; the columns are the ones the program writes by position
    ([A] to [K] of the shifts sheet, [A] to [I] of the accruals sheet) under
    the headers it reads.  A cell holds what [get_all_records] gives for it:
    text, an integer or a float. *)

(** A row of "Зміни": columns A to K. *)
Record ShiftRow : Type := mkShiftRow {
  c_id : pyval;            (* A  "ID Запису" *)
  c_name : pyval;          (* B  "ПІБ" *)
  c_date : pyval;          (* C  "Дата зміни" *)
  c_overtime : pyval;      (* D  "Овертайм годин" *)
  c_hours : pyval;         (* E  "Кількість відпрацьованих годин зміни" *)
  c_comment : pyval;       (* F  "Коментар" *)
  c_submitted : pyval;     (* G  "Дата/Час Подачі" *)
  c_status : pyval;        (* H  "Статус" *)
  c_approved : pyval;      (* I  "Дата/Час Апрува" *)
  c_mgr_comment : pyval;   (* J  "Коментар Керівника" *)
  c_mgr_name : pyval       (* K  "ПІБ Керівника" *)
}.

(** A row of "Співробітники". *)
Record EmployeeRow : Type := mkEmployeeRow {
  e_name : pyval;          (* "ПІБ" *)
  e_phone : pyval;         (* "Телефон" *)
  e_role : pyval;          (* "Роль" *)
  e_shift_rate : pyval;    (* "Вартість зміни" *)
  e_overtime_rate : pyval; (* "Вартість години овертайму" *)
  e_manager : pyval        (* "Керівник" *)
}.

(** A row of "Нарахування": columns A to I, in the order [_append_accrual] writes. *)
Record AccrualRow : Type := mkAccrualRow {
  a_id : pyval;
  a_name : pyval;
  a_date : pyval;
  a_overtime_hours : pyval;
  a_shift_rate : pyval;
  a_overtime_rate : pyval;
  a_shift_sum : pyval;
  a_overtime_sum : pyval;
  a_total_sum : pyval
}.

Record Store : Type := mkStore {
  employees : list EmployeeRow;
  shifts : list ShiftRow;
  accruals : list AccrualRow
}.

Inductive worksheet : Type := EMPLOYEES_SHEET | SHIFTS_SHEET | ACCRUALS_SHEET.

(** The requests of [ensure_data_validations]: a [setDataValidation] with its
    grid range and its [ONE_OF_LIST] rule. *)
Record GridRange : Type := mkRange {
  sheetId : Z;
  startRowIndex : Z;
  startColumnIndex : Z;
  endColumnIndex : Z;
  endRowIndex : Z
}.

Record ValidationRule : Type := mkRule {
  rule_values : list string;
  inputMessage : string;
  strict : bool;
  showCustomUi : bool
}.

Record Request : Type := setDataValidation { range : GridRange; rule : ValidationRule }.

(** State and exceptions: a call leaves the store as it was when it raised. *)
Definition M (A : Type) : Type := Store -> result A * Store.

#[export] Instance M_ret : MRet M := fun A a st => (Ok a, st).
#[export] Instance M_bind : MBind M := fun A B f m st =>
  match m st with
  | (Ok a, st') => f a st'
  | (Raise e, st') => (Raise e, st')
  end.

Definition lift {A} (r : result A) : M A := fun st => (r, st).

(** [ws.get_all_records()] *)
Definition get_employee_records : M (list EmployeeRow) := fun st => (Ok (employees st), st).
Definition get_shift_records : M (list ShiftRow) := fun st => (Ok (shifts st), st).

(** [ws.col_values(1)]: the text of the header cell, then of the first cell
    of every row ([_next_id] drops the header cell, whatever it says). *)
Definition col_values_1 `{FloatRepr} (ws : worksheet) : M (list pyval) := fun st =>
  (Ok (map (fun v => VStr (py_str v))
         match ws with
         | EMPLOYEES_SHEET => VStr "ПІБ" :: map e_name (employees st)
         | SHIFTS_SHEET => VStr "ID Запису" :: map c_id (shifts st)
         | ACCRUALS_SHEET => VStr "ID" :: map a_id (accruals st)
         end), st).

(** [ws.append_row(row)] *)
Definition append_shift_row (row : ShiftRow) : M unit := fun st =>
  (Ok tt, mkStore (employees st) (shifts st ++ [row]) (accruals st)).
Definition append_accrual_row (row : AccrualRow) : M unit := fun st =>
  (Ok tt, mkStore (employees st) (shifts st) (accruals st ++ [row])).

(** Sheet row [row_idx] is element [row_idx - 2] of the rows (line 1 is the header). *)
Definition row_pos (row_idx : Z) : nat := Z.to_nat (row_idx - 2).

(** [ws.update("C{row_idx}:G{row_idx}", [[c, d, e, f, g]])] on the shifts sheet *)
Definition update_C_G (row_idx : Z) (c d e f g : pyval) : M unit := fun st =>
  (Ok tt,
   mkStore (employees st)
     (alter (fun r => mkShiftRow (c_id r) (c_name r) c d e f g (c_status r)
                        (c_approved r) (c_mgr_comment r) (c_mgr_name r))
            (row_pos row_idx) (shifts st))
     (accruals st)).

(** [ws.update("H{row_idx}:K{row_idx}", [[h, i, j, k]])] on the shifts sheet *)
Definition update_H_K (row_idx : Z) (h i j k : pyval) : M unit := fun st =>
  (Ok tt,
   mkStore (employees st)
     (alter (fun r => mkShiftRow (c_id r) (c_name r) (c_date r) (c_overtime r) (c_hours r)
                        (c_comment r) (c_submitted r) h i j k)
            (row_pos row_idx) (shifts st))
     (accruals st)).

Section Gateway.
Context `{FloatRepr}.

(** [cell.strip()]: only text has the method. *)
Definition strip_cell (v : pyval) : result string :=
  match v with
  | VStr s => Ok (strip s)
  | _ => Raise AttributeError
  end.

(** [s or None] *)
Definition or_None (s : string) : option string :=
  if String.eqb s "" then None else Some s.

(** The body of the loop of [_fetch_employees] that fills [name_by_phone]. *)
Fixpoint fill_name_by_phone (rows : list EmployeeRow) (acc : gmap string string)
  : result (gmap string string) :=
  match rows with
  | [] => Ok acc
  | row :: rows' =>
      let phone := strip (py_str (e_phone row)) in
      nm ← strip_cell (e_name row);
      fill_name_by_phone rows'
        (if negb (String.eqb phone "") && negb (String.eqb nm "")
         then <[phone := nm]> acc else acc)
  end.

Definition employee_of_row (name_by_phone : gmap string string) (row : EmployeeRow)
  : result Employee :=
  let phone := strip (py_str (e_phone row)) in
  let manager_raw := strip (py_str (e_manager row)) in
  let manager_name :=
    match or_None manager_raw with
    | Some m => match name_by_phone !! m with
                | Some n => Some n
                | None => Some m
                end
    | None => None
    end in
  nm ← strip_cell (e_name row);
  rl ← strip_cell (e_role row);
  sr ← parse_float (e_shift_rate row);
  orate ← parse_float (e_overtime_rate row);
  Ok (mkEmployee nm phone rl sr orate manager_name).

Definition _fetch_employees : M (list Employee) :=
  rows ← get_employee_records;
  name_by_phone ← lift (fill_name_by_phone rows ∅);
  lift (traverse (employee_of_row name_by_phone) rows).

Definition fetch_employee_by_phone (phone_no : string) : M (option Employee) :=
  emps ← _fetch_employees;
  mret (find (fun e => String.eqb (phone e) phone_no) emps).

Definition fetch_employee_by_name (nm : string) : M (option Employee) :=
  emps ← _fetch_employees;
  mret (find (fun e => String.eqb (name e) nm) emps).

Definition list_subordinates (mgr : string) : M (list Employee) :=
  emps ← _fetch_employees;
  mret (List.filter (fun e => bool_decide (emp_manager_name e = Some mgr)) emps).

(** One turn of the loop of [_fetch_shift_records]. *)
Definition shift_of_row (today : date) (idx : Z) (row : ShiftRow) : result ShiftRecord :=
  sid ← parse_int (c_id row);
  let sdate := parse_date (c_date row) in
  nm ← strip_cell (c_name row);
  ov ← parse_float (c_overtime row);
  hrs ← parse_float (c_hours row);
  cm ← strip_cell (c_comment row);
  let sub := parse_date_time (c_submitted row) in
  st ← strip_cell (c_status row);
  let appr := parse_date_time (c_approved row) in
  mc ← strip_cell (c_mgr_comment row);
  mn ← strip_cell (c_mgr_name row);
  Ok (mkShiftRecord idx (default 0 sid) nm (default today sdate) ov hrs cm sub st appr
        (Some mc) (or_None mn)).

(** [for idx, row in enumerate(rows, start)] *)
Fixpoint shifts_of_rows (today : date) (start : Z) (rows : list ShiftRow)
  : result (list ShiftRecord) :=
  match rows with
  | [] => Ok []
  | row :: rows' =>
      r ← shift_of_row today start row;
      rs ← shifts_of_rows today (start + 1) rows';
      Ok (r :: rs)
  end.

Definition _fetch_shift_records (today : date) : M (list ShiftRecord) :=
  rows ← get_shift_records;
  lift (shifts_of_rows today 2 rows).

(** The list comprehension of [_next_id]: [parse_int(val)] for the non-empty
    cells below the header, those that parse. *)
Fixpoint numeric_ids (values : list pyval) : result (list Z) :=
  match values with
  | [] => Ok []
  | val :: values' =>
      if truthy val then
        n ← parse_int val;
        ns ← numeric_ids values';
        Ok (match n with Some z => z :: ns | None => ns end)
      else numeric_ids values'
  end.

(** [max(numeric)] of a non-empty list. *)
Definition list_max (z : Z) (zs : list Z) : Z := fold_left Z.max zs z.

Definition _next_id (ws : worksheet) : M Z :=
  values ← col_values_1 ws;
  numeric ← lift (numeric_ids (tail values));
  match numeric with
  | [] => mret 1
  | z :: zs => mret (list_max z zs + 1)
  end.

(** [shift.manager_name or ""] *)
Definition or_empty (s : option string) : string := default "" s.

Definition append_shift (shift : ShiftInput) : M Z :=
  next_id ← _next_id SHIFTS_SHEET;
  let row := mkShiftRow (VInt next_id) (VStr (in_employee_name shift))
               (VStr (format_date (in_shift_date shift)))
               (VFloat (in_overtime_hours shift)) (VFloat (in_shift_hours shift))
               (VStr (in_comment shift)) (VStr (format_datetime (in_submitted_at shift)))
               (VStr SHIFT_STATUS_PENDING) (VStr "") (VStr "")
               (VStr (or_empty (in_manager_name shift))) in
  _ ← append_shift_row row;
  mret next_id.

(** [submitted_at.date() if submitted_at else shift_date] *)
Definition reference_date (record : ShiftRecord) : date :=
  match submitted_at record with
  | Some t => date_of t
  | None => shift_date record
  end.

(** [threshold = date.today() - timedelta(days=days_back)] when [days_back]
    is given and not zero. *)
Definition threshold_of (today : date) (days_back : option Z) : result (option date) :=
  match days_back with
  | None => Ok None
  | Some n => if n =? 0 then Ok None else t ← date_sub_days today n; Ok (Some t)
  end.

Definition get_employee_shifts (today : date) (emp : string) (days_back : option Z)
    (only_pending : bool) : M (list ShiftRecord) :=
  records ← _fetch_shift_records today;
  threshold ← lift (threshold_of today days_back);
  mret (List.filter (fun record =>
          String.eqb (employee_name record) emp
          && negb (only_pending && negb (String.eqb (status record) SHIFT_STATUS_PENDING))
          && match threshold with
             | Some t => negb (date_ltb (reference_date record) t)
             | None => true
             end) records).

(** The loop of [get_editable_shift]: the first record with the id decides. *)
Fixpoint editable_in (records : list ShiftRecord) (emp : string) (sid : Z) (threshold : date)
  : option ShiftRecord :=
  match records with
  | [] => None
  | record :: records' =>
      if negb (shift_id record =? sid) then editable_in records' emp sid threshold
      else if negb (String.eqb (employee_name record) emp) then None
      else if negb (String.eqb (status record) SHIFT_STATUS_PENDING) then None
      else if date_ltb (reference_date record) threshold then None
      else Some record
  end.

Definition get_editable_shift (today : date) (emp : string) (sid : Z)
    (max_days_since_submission : Z) : M (option ShiftRecord) :=
  records ← _fetch_shift_records today;
  threshold ← lift (date_sub_days today max_days_since_submission);
  mret (editable_in records emp sid threshold).

Definition get_pending_for_manager (today : date) (mgr : string) : M (list ShiftRecord) :=
  records ← _fetch_shift_records today;
  mret (List.filter (fun record =>
          bool_decide (manager_name record = Some mgr)
          && String.eqb (status record) SHIFT_STATUS_PENDING) records).

Definition update_shift_details (today : date) (sid : Z) (emp : string)
    (updated : ShiftInput) (max_days_since_submission : Z) : M bool :=
  editable ← get_editable_shift today emp sid max_days_since_submission;
  match editable with
  | None => mret false
  | Some editable =>
      let row_idx := row_index editable in
      _ ← update_C_G row_idx
            (VStr (format_date (in_shift_date updated)))
            (VFloat (in_overtime_hours updated))
            (VFloat (in_shift_hours updated))
            (VStr (in_comment updated))
            (VStr (format_datetime (in_submitted_at updated)));
      mret true
  end.

Definition _append_accrual (shift : ShiftRecord) : M unit :=
  employee ← fetch_employee_by_name (employee_name shift);
  match employee with
  | None => mret tt
  | Some employee =>
      next_id ← _next_id ACCRUALS_SHEET;
      let shift_sum := (shift_hours shift * shift_rate employee)%float in
      let overtime_sum := (overtime_hours shift * overtime_rate employee)%float in
      append_accrual_row
        (mkAccrualRow (VInt next_id) (VStr (name employee))
           (VStr (format_date (shift_date shift)))
           (VFloat (overtime_hours shift))
           (VFloat (shift_rate employee)) (VFloat (overtime_rate employee))
           (VFloat shift_sum) (VFloat overtime_sum)
           (VFloat (shift_sum + overtime_sum)%float))
  end.

Definition update_shift_status (today : date) (sid : Z) (new_status : string)
    (mgr : string) (cmt : string) (approved : datetime)
  : M (option ShiftRecord * bool) :=
  records ← _fetch_shift_records today;
  match find (fun r => shift_id r =? sid) records with
  | None => mret (None, false)
  | Some target =>
      if negb (String.eqb (status target) SHIFT_STATUS_PENDING) then mret (Some target, false)
      else
        let row_idx := row_index target in
        _ ← update_H_K row_idx (VStr new_status) (VStr (format_datetime approved))
              (VStr cmt) (VStr mgr);
        let updated :=
          mkShiftRecord row_idx (shift_id target) (employee_name target) (shift_date target)
            (overtime_hours target) (shift_hours target) (comment target)
            (submitted_at target) new_status (Some approved) (Some cmt) (Some mgr) in
        _ ← (if String.eqb new_status SHIFT_STATUS_APPROVED
             then _append_accrual updated else mret tt);
        mret (Some updated, true)
  end.

(** [sorted({...})]: the distinct elements, ascending by code point (on UTF-8
    text the order of the bytes). *)
Fixpoint insert_sorted (x : string) (l : list string) : list string :=
  match l with
  | [] => [x]
  | y :: l' =>
      match String.compare x y with
      | Lt => x :: l
      | Eq => l
      | Gt => y :: insert_sorted x l'
      end
  end.

Definition sorted_set (l : list string) : list string := fold_right insert_sorted [] l.

(** [ensure_data_validations]: the requests handed to [batch_update] for the
    employees worksheet whose id is [sheet_id]. *)
Definition ensure_data_validations (sheet_id : Z) : M (list Request) :=
  let role_rule := mkRule ["Керівник"; "Співробітник"] "Оберіть роль зі списку" true true in
  let requests := [setDataValidation (mkRange sheet_id 1 2 3 500) role_rule] in
  emps ← _fetch_employees;
  let managers := sorted_set (map name (List.filter is_manager emps)) in
  match managers with
  | [] => mret requests
  | _ =>
      let manager_rule := mkRule managers "Оберіть керівника зі списку" true true in
      mret (requests ++ [setDataValidation (mkRange sheet_id 1 5 6 500) manager_rule])
  end.

End Gateway.
End Sheets.
Export Sheets.
(** * [states.py], [keyboards.py] *)

Module States.

Inductive State : Type :=
| ShiftForm_date | ShiftForm_shift_hours | ShiftForm_overtime_hours | ShiftForm_comment
| ManagerComment_comment
| ShiftEdit_select_shift | ShiftEdit_date | ShiftEdit_shift_hours
| ShiftEdit_overtime_hours | ShiftEdit_comment.

Definition SKIP_COMMENT : string := "Пропустити".

Inductive keyboard : Type :=
| share_contact_keyboard
| employee_menu (is_manager : bool)
| skip_comment_keyboard
| manager_decision_keyboard (shift_id : Z)
| ReplyKeyboardRemove.

#[export] Instance State_eq_dec : EqDecision State.
Proof. solve_decision. Defined.

(** The buttons of a keyboard, row by row: a reply button sends its text, an
    inline button sends its callback data. *)
Inductive button : Type :=
| KeyboardButton (text : string) (request_contact : bool)
| InlineKeyboardButton (text : string) (callback_data : string).

Definition button_rows (k : keyboard) : list (list button) :=
  match k with
  | share_contact_keyboard => [[KeyboardButton "Поделиться номером" true]]
  | employee_menu true =>
      [[KeyboardButton "В очікуванні" false; KeyboardButton "Мої співробітники" false];
       [KeyboardButton "Переглянути таблицю" false]]
  | employee_menu false =>
      [[KeyboardButton "Добавить новую смену" false];
       [KeyboardButton "Редактировать поданую смену" false];
       [KeyboardButton "Мои смены (7 дней)" false; KeyboardButton "Заявки в ожидании" false];
       [KeyboardButton "Помощь" false]]
  | skip_comment_keyboard => [[KeyboardButton SKIP_COMMENT false]]
  | manager_decision_keyboard shift_id =>
      [[InlineKeyboardButton "Підтвердити" (String.append "approve:" (str_of_Z shift_id));
        InlineKeyboardButton "Відхилити" (String.append "decline:" (str_of_Z shift_id))]]
  | ReplyKeyboardRemove => []
  end.

End States.
Export States.

(** * [__main__.py] *)

Module Bot.

(** [sanitize_phone(raw)] *)
Definition sanitize_phone (raw : option string) : option string :=
  match raw with
  | None => None
  | Some raw =>
      if String.eqb raw "" then None
      else
        let digits := digits_only raw in
        let digits :=
          if startswith digits "0" && (len digits =? 10)%nat
          then String.append "38" digits else digits in
        if startswith digits "380" then Some digits
        else if String.eqb digits "" then None else Some digits
  end.

(** What a handler sends back: [message.answer(text, reply_markup)] and
    [callback.answer(text, show_alert)]. *)
Inductive reply : Type :=
| Answer (text : string) (reply_markup : option keyboard)
| CallbackAnswer (text : option string) (show_alert : bool).

(** [FSMContext]: the conversation state and the form data of one session. *)
Record FSMContext : Type := mkFSM {
  fsm_state : option State;
  fsm_data : gmap string pyval
}.

(** The process: the registry ([AuthorizationRegistry._users]), the session's
    context, the store behind the gateway, and the replies sent so far. *)
Record World : Type := mkWorld {
  users : gmap Z Employee;
  ctx : FSMContext;
  store : Store;
  outbox : list reply
}.

Record Message : Type := mkMessage { from_user : Z; text : option string }.
Record CallbackQuery : Type := mkCallback { cb_from_user : Z; cb_data : string }.

(** [message.contact] of a message that shares a contact. *)
Record Contact : Type := mkContact { user_id : option Z; phone_number : string }.

(** An update of the session: a message, with the contact it shares if any,
    or the press of an inline button. *)
Inductive Update : Type :=
| message_update (message : Message) (contact : option Contact)
| callback_update (callback : CallbackQuery).

Definition H (A : Type) : Type := World -> result A * World.

#[export] Instance H_ret : MRet H := fun A a w => (Ok a, w).
#[export] Instance H_bind : MBind H := fun A B f m w =>
  match m w with
  | (Ok a, w') => f a w'
  | (Raise e, w') => (Raise e, w')
  end.

Definition liftR {A} (r : result A) : H A := fun w => (r, w).

(** A gateway call, run on the store of the process. *)
Definition sheets {A} (m : M A) : H A := fun w =>
  let '(r, st) := m (store w) in (r, mkWorld (users w) (ctx w) st (outbox w)).

(** [AuthorizationRegistry] *)
Definition set_employee (telegram_id : Z) (employee : Employee) : H unit := fun w =>
  (Ok tt, mkWorld (<[telegram_id := employee]> (users w)) (ctx w) (store w) (outbox w)).
Definition get_employee (telegram_id : Z) : H (option Employee) := fun w =>
  (Ok (users w !! telegram_id), w).

(** [FSMContext]: [clear], [set_state], [update_data], [get_data] *)
Definition state_clear : H unit := fun w =>
  (Ok tt, mkWorld (users w) (mkFSM None ∅) (store w) (outbox w)).
Definition set_state (s : State) : H unit := fun w =>
  (Ok tt, mkWorld (users w) (mkFSM (Some s) (fsm_data (ctx w))) (store w) (outbox w)).
Definition update_data (kwargs : list (string * pyval)) : H unit := fun w =>
  (Ok tt,
   mkWorld (users w)
     (mkFSM (fsm_state (ctx w))
            (fold_left (fun d kv => <[kv.1 := kv.2]> d) kwargs (fsm_data (ctx w))))
     (store w) (outbox w)).
Definition get_data : H (gmap string pyval) := fun w => (Ok (fsm_data (ctx w)), w).

Definition send (r : reply) : H unit := fun w =>
  (Ok tt, mkWorld (users w) (ctx w) (store w) (outbox w ++ [r])).
Definition answer (text : string) (markup : option keyboard) : H unit :=
  send (Answer text markup).

(** [data[key]] *)
Definition getitem (data : gmap string pyval) (key : string) : result pyval :=
  match data !! key with
  | Some v => Ok v
  | None => Raise KeyError
  end.

(** [sys.int_info.default_max_str_digits] *)
Definition max_str_digits : nat := 4300.

(** [int(s)] for a string: white space around, a sign, digits with single
    underscores between them, no more digits than the limit; [None] stands
    for ValueError. *)
Definition int_of_string (s : string) : option Z :=
  let '(neg, r) := take_sign (c_strip (number_text s)) in
  match strip_underscores None r with
  | Some ((_ :: _) as ds) =>
      if forallb is_digit ds && (length ds <=? max_str_digits)%nat
      then Some (if neg then - digits_to_Z ds else digits_to_Z ds)
      else None
  | _ => None
  end.

(** [int(v)] *)
Definition py_int (v : pyval) : result Z :=
  match v with
  | VNone => Raise TypeError
  | VStr s => match int_of_string s with
              | Some z => Ok z
              | None => Raise ValueError
              end
  | VInt z => Ok z
  | VFloat f => py_int_of_float f
  end.

(** [date.isoformat()] *)
Definition isoformat (d : date) : string :=
  string_of_list_ascii
    (pad2 (year d / 100) ++ pad2 (year d mod 100) ++ ["-"%char] ++ pad2 (month d)
     ++ ["-"%char] ++ pad2 (day d)).

(** [date.fromisoformat(v)], for the form [YYYY-MM-DD] that [isoformat] writes. *)
Definition fromisoformat (v : pyval) : result date :=
  match v with
  | VStr s =>
      match list_ascii_of_string s with
      | [y1; y2; y3; y4; "-"; m1; m2; "-"; d1; d2]%char =>
          if forallb is_digit [y1; y2; y3; y4; m1; m2; d1; d2] then
            let dv c := Z.of_nat (digit_val c) in
            let d := mkdate (1000 * dv y1 + 100 * dv y2 + 10 * dv y3 + dv y4)
                            (10 * dv m1 + dv m2) (10 * dv d1 + dv d2) in
            if valid_date d then Ok d else Raise ValueError
          else Raise ValueError
      | _ => Raise ValueError
      end
  | _ => Raise TypeError
  end.

Definition nl : string := String (ascii_of_nat 10) EmptyString.

Fixpoint join (sep : string) (l : list string) : string :=
  match l with
  | [] => ""
  | [x] => x
  | x :: l' => String.append x (String.append sep (join sep l'))
  end.

Fixpoint concat_all (l : list string) : string :=
  match l with
  | [] => ""
  | x :: l' => String.append x (concat_all l')
  end.

(** [text.split(":")] *)
Fixpoint split_colon (cur : string) (s : string) : list string :=
  match s with
  | EmptyString => [cur]
  | String c s' =>
      if Ascii.eqb c ":" then cur :: split_colon "" s'
      else split_colon (String.append cur (String c EmptyString)) s'
  end.

(** [text.replace("#", "")] *)
Fixpoint replace_hash (s : string) : string :=
  match s with
  | String c s' => if Ascii.eqb c "#" then replace_hash s' else String c (replace_hash s')
  | EmptyString => EmptyString
  end.

(** [comment = "" if message.text == SKIP_COMMENT else (message.text or "")] *)
Definition comment_of (message : Message) : string :=
  match text message with
  | Some t => if String.eqb t SKIP_COMMENT then "" else t
  | None => ""
  end.

Section Handlers.
Context `{FloatRepr}.
(** [date.today()] and [datetime.now(timezone)] at the time of the event. *)
Variable today : date.
Variable now : datetime.

Definition ensure_authorized (message : Message) : H (option Employee) :=
  employee ← get_employee (from_user message);
  match employee with
  | Some e => mret (Some e)
  | None =>
      _ ← answer "Спочатку авторизуйся, поділившись номером." (Some share_contact_keyboard);
      mret None
  end.

Definition request_shift_date (message : Message) : H unit :=
  employee ← ensure_authorized message;
  match employee with
  | None => mret tt
  | Some employee =>
      _ ← set_state ShiftForm_date;
      _ ← update_data [("employee_name", VStr (name employee));
                       ("manager", match emp_manager_name employee with
                                   | Some m => VStr m
                                   | None => VNone
                                   end)];
      answer "Вкажи дату зміни у форматі ДД.ММ.РРРР." (Some ReplyKeyboardRemove)
  end.

Definition handle_shift_comment (message : Message) : H unit :=
  data ← get_data;
  employee ← ensure_authorized message;
  match employee with
  | None => mret tt
  | Some employee =>
      let cmt := comment_of message in
      sd ← liftR (v ← getitem data "shift_date"; fromisoformat v);
      sh ← liftR (v ← getitem data "shift_hours"; py_float v);
      oh ← liftR (v ← getitem data "overtime_hours"; py_float v);
      let shift := mkShiftInput (name employee) sd sh oh cmt now (emp_manager_name employee) in
      sid ← sheets (append_shift shift);
      _ ← state_clear;
      answer (concat_all ["Зміна #"; str_of_Z sid; " збережена та очікує підтвердження."])
             (Some (employee_menu (is_manager employee)))
  end.

(** [shift.comment or '-'] *)
Definition or_dash (s : string) : string := if String.eqb s "" then "-" else s.

Definition edit_line (shift : ShiftRecord) : string :=
  concat_all ["#"; str_of_Z (shift_id shift); " — "; format_date (shift_date shift);
              nl; "Години: "; py_str (VFloat (shift_hours shift));
              ", Овертайм: "; py_str (VFloat (overtime_hours shift));
              nl; "Коментар: "; or_dash (comment shift)].

Definition start_editing_shift (message : Message) : H unit :=
  employee ← ensure_authorized message;
  match employee with
  | None => mret tt
  | Some employee =>
      _ ← state_clear;
      shifts ← sheets (get_employee_shifts today (name employee) (Some 7) true);
      match shifts with
      | [] =>
          answer "Нет заявок для редактирования. Доступно только для заявок, поданных не позже 7 днів тому та зі статусом «Очікує»."
                 (Some (employee_menu (is_manager employee)))
      | _ =>
          _ ← set_state ShiftEdit_select_shift;
          answer (concat_all ["Доступні заявки для редагування:"; nl;
                              join (String.append nl nl) (map edit_line shifts);
                              nl; nl; "Введи номер заявки, яку треба змінити."])
                 (Some ReplyKeyboardRemove)
      end
  end.

Definition handle_edit_selection (message : Message) : H unit :=
  employee ← ensure_authorized message;
  match employee with
  | None => state_clear
  | Some employee =>
      let txt := strip (replace_hash (default "" (text message))) in
      if negb (isdigit txt) then answer "Вкажи номер заявки числом." None
      else
        sid ← liftR (py_int (VStr txt));
        record ← sheets (get_editable_shift today (name employee) sid 7);
        match record with
        | None =>
            answer "Заявка недоступна для редагування. Переконайся, що вона очікує підтвердження і подана не пізніше 7 днів тому." None
        | Some record =>
            _ ← update_data [("edit_shift_id", VInt sid);
                             ("previous_shift_hours", VFloat (shift_hours record));
                             ("previous_overtime_hours", VFloat (overtime_hours record));
                             ("previous_comment", VStr (comment record))];
            _ ← set_state ShiftEdit_date;
            answer (concat_all ["Поточна дата зміни: "; format_date (shift_date record);
                                ". Введи нову дату у форматі ДД.ММ.РРРР."]) None
        end
  end.

(** [try: int(data["edit_shift_id"]) except (KeyError, ValueError, TypeError)] *)
Definition except_key_value_type {A} (r : result A) : result (option A) :=
  match r with
  | Ok a => Ok (Some a)
  | Raise KeyError | Raise ValueError | Raise TypeError => Ok None
  | Raise e => Raise e
  end.

(** [try: date.fromisoformat(data["edit_shift_date"]) except (KeyError, ValueError)] *)
Definition except_key_value {A} (r : result A) : result (option A) :=
  match r with
  | Ok a => Ok (Some a)
  | Raise KeyError | Raise ValueError => Ok None
  | Raise e => Raise e
  end.

Definition finalize_shift_edit (message : Message) : H unit :=
  employee ← ensure_authorized message;
  match employee with
  | None => state_clear
  | Some employee =>
      data ← get_data;
      sid ← liftR (except_key_value_type (v ← getitem data "edit_shift_id"; py_int v));
      match sid with
      | None =>
          _ ← state_clear;
          answer "Не вдалося знайти заявку. Спробуй ще раз."
                 (Some (employee_menu (is_manager employee)))
      | Some sid =>
          let cmt := comment_of message in
          sd ← liftR (except_key_value (v ← getitem data "edit_shift_date"; fromisoformat v));
          match sd with
          | None =>
              _ ← state_clear;
              answer "Не вдалося зберегти зміну — повтори спробу."
                     (Some (employee_menu (is_manager employee)))
          | Some sd =>
              sh ← liftR (v ← getitem data "edit_shift_hours"; py_float v);
              oh ← liftR (v ← getitem data "edit_overtime_hours"; py_float v);
              let shift := mkShiftInput (name employee) sd sh oh cmt now
                             (emp_manager_name employee) in
              updated ← sheets (update_shift_details today sid (name employee) shift 7);
              _ ← state_clear;
              if negb updated then
                answer "Не вдалося оновити заявку. Вона могла бути підтверджена або минуло більше 7 днів."
                       (Some (employee_menu (is_manager employee)))
              else
                answer (concat_all ["Заявка #"; str_of_Z sid; " оновлена. Очікує підтвердження."])
                       (Some (employee_menu (is_manager employee)))
          end
      end
  end.

(** The handler of the buttons whose data starts with ["approve:"] or ["decline:"]. *)
Definition handle_manager_decision (callback : CallbackQuery) : H unit :=
  employee ← get_employee (cb_from_user callback);
  match employee with
  | Some employee =>
      if negb (is_manager employee) then send (CallbackAnswer (Some "Немає прав.") true)
      else
        match split_colon "" (cb_data callback) with
        | [action; shift_id_str] =>
            _ ← set_state ManagerComment_comment;
            sid ← liftR (py_int (VStr shift_id_str));
            _ ← update_data [("manager_action", VStr action); ("shift_id", VInt sid)];
            _ ← answer "Додай коментар до рішення (або натисни «Пропустити»)."
                  (Some skip_comment_keyboard);
            send (CallbackAnswer None false)
        | _ => liftR (Raise ValueError)
        end
  | None => send (CallbackAnswer (Some "Немає прав.") true)
  end.

Definition finalize_manager_decision (message : Message) : H unit :=
  employee ← ensure_authorized message;
  match employee with
  | Some employee =>
      if negb (is_manager employee) then state_clear
      else
        data ← get_data;
        sid ← liftR (v ← getitem data "shift_id"; py_int v);
        action ← liftR (getitem data "manager_action");
        let cmt := comment_of message in
        let new_status :=
          match action with
          | VStr "approve" => SHIFT_STATUS_APPROVED
          | _ => SHIFT_STATUS_DECLINED
          end in
        '(updated, changed) ← sheets (update_shift_status today sid new_status
                                        (name employee) cmt now);
        _ ← state_clear;
        match updated with
        | None => answer "Заявку не знайдено." None
        | Some updated =>
            if negb changed then
              answer (concat_all ["Заявка #"; str_of_Z sid; " вже має статус «";
                                  status updated; "»."])
                     (Some (employee_menu (is_manager employee)))
            else
              answer (concat_all ["Статус заявки #"; str_of_Z sid; " змінено на «";
                                  new_status; "»."])
                     (Some (employee_menu (is_manager employee)))
        end
  | None => state_clear
  end.

(** ** The other handlers *)

Definition handle_start (message : Message) : H unit :=
  _ ← state_clear;
  employee ← get_employee (from_user message);
  match employee with
  | Some employee =>
      answer (concat_all ["Вітаю, "; name employee; "! Обери дію в меню."])
             (Some (employee_menu (is_manager employee)))
  | None =>
      answer "Привіт! Поділись номером телефону, щоб пройти авторизацію."
             (Some share_contact_keyboard)
  end.

(** [contact.user_id and contact.user_id != message.from_user.id] *)
Definition foreign_contact (message : Message) (contact : Contact) : bool :=
  match user_id contact with
  | Some uid => negb (uid =? 0) && negb (uid =? from_user message)
  | None => false
  end.

Definition handle_contact (message : Message) (contact : Contact) : H unit :=
  _ ← state_clear;
  if foreign_contact message contact then
    answer "Надішли контакт саме зі свого аккаунту." (Some share_contact_keyboard)
  else
    match sanitize_phone (Some (phone_number contact)) with
    | Some phone_no =>
        if String.eqb phone_no "" then
          answer "Не вдалося розпізнати номер. Спробуй ще раз." (Some share_contact_keyboard)
        else
          employee ← sheets (fetch_employee_by_phone phone_no);
          match employee with
          | None =>
              answer "Твого номеру немає в списку співробітників. Звернися до адміністратора."
                     (Some share_contact_keyboard)
          | Some employee =>
              _ ← set_employee (from_user message) employee;
              answer (concat_all ["Вітаю, "; name employee; "! Меню доступне нижче."])
                     (Some (employee_menu (is_manager employee)))
          end
    | None =>
        answer "Не вдалося розпізнати номер. Спробуй ще раз." (Some share_contact_keyboard)
    end.

Definition handle_shift_date (message : Message) : H unit :=
  match parse_user_date (default "" (text message)) with
  | None => answer "Невірний формат дати. Спробуй ще раз (ДД.ММ.РРРР)." None
  | Some shift_date =>
      _ ← update_data [("shift_date", VStr (isoformat shift_date))];
      _ ← set_state ShiftForm_shift_hours;
      answer "Скільки годин тривав твій робочий день? (число)" None
  end.

Definition handle_shift_hours (message : Message) : H unit :=
  match parse_hours (Some (default "" (text message))) with
  | None => answer "Вкажи кількість годин числом, наприклад 8 або 7.5." None
  | Some hours =>
      _ ← update_data [("shift_hours", VFloat hours)];
      _ ← set_state ShiftForm_overtime_hours;
      answer "Скільки годин овертайму? (0, якщо не було)" None
  end.

Definition handle_overtime_hours (message : Message) : H unit :=
  match parse_hours (Some (default "" (text message))) with
  | None => answer "Вкажи годинник овертайму числом." None
  | Some hours =>
      _ ← update_data [("overtime_hours", VFloat hours)];
      _ ← set_state ShiftForm_comment;
      answer "Додай коментар або натисни «Пропустити»." (Some skip_comment_keyboard)
  end.

(** [v if v is not None else "-"] for [v = data.get(key)], as an f-string prints it. *)
Definition or_dash_if_None (v : option pyval) : string :=
  match v with
  | None | Some VNone => "-"
  | Some v => py_str v
  end.

(** [data.get(key) or "-"], as an f-string prints it. *)
Definition or_dash_if_falsy (v : option pyval) : string :=
  match v with
  | Some v => if truthy v then py_str v else "-"
  | None => "-"
  end.

Definition handle_edit_date (message : Message) : H unit :=
  match parse_user_date (default "" (text message)) with
  | None => answer "Невірний формат дати. Спробуй (ДД.ММ.РРРР)." None
  | Some shift_date =>
      _ ← update_data [("edit_shift_date", VStr (isoformat shift_date))];
      data ← get_data;
      let prev_hours := or_dash_if_None (data !! "previous_shift_hours") in
      _ ← set_state ShiftEdit_shift_hours;
      answer (concat_all ["Скільки годин тривала зміна? Поточне значення: "; prev_hours; "."])
             None
  end.

Definition handle_edit_shift_hours (message : Message) : H unit :=
  match parse_hours (Some (default "" (text message))) with
  | None => answer "Вкажи кількість годин числом." None
  | Some hours =>
      _ ← update_data [("edit_shift_hours", VFloat hours)];
      data ← get_data;
      let prev_overtime := or_dash_if_None (data !! "previous_overtime_hours") in
      _ ← set_state ShiftEdit_overtime_hours;
      answer (concat_all ["Скільки годин овертайму? Поточне значення: "; prev_overtime; "."])
             None
  end.

Definition handle_edit_overtime_hours (message : Message) : H unit :=
  match parse_hours (Some (default "" (text message))) with
  | None => answer "Вкажи годинник овертайму числом." None
  | Some hours =>
      _ ← update_data [("edit_overtime_hours", VFloat hours)];
      data ← get_data;
      let prev_comment := or_dash_if_falsy (data !! "previous_comment") in
      _ ← set_state ShiftEdit_comment;
      answer (concat_all ["Поточний коментар: "; prev_comment; nl;
                          "Введи новий або натисни «"; SKIP_COMMENT; "»."])
             (Some skip_comment_keyboard)
  end.

Definition recent_line (shift : ShiftRecord) : string :=
  concat_all ["#"; str_of_Z (shift_id shift); " — "; format_date (shift_date shift);
              " | "; status shift;
              nl; "Години: "; py_str (VFloat (shift_hours shift));
              ", Овертайм: "; py_str (VFloat (overtime_hours shift));
              nl; "Коментар: "; or_dash (comment shift)].

Definition handle_recent_shifts (message : Message) : H unit :=
  employee ← ensure_authorized message;
  match employee with
  | None => mret tt
  | Some employee =>
      shifts ← sheets (get_employee_shifts today (name employee) (Some 7) false);
      match shifts with
      | [] => answer "За останні 7 днів немає поданих заявок." None
      | _ => answer (join (String.append nl nl) (map recent_line shifts)) None
      end
  end.

Definition handle_pending_shifts (message : Message) : H unit :=
  employee ← ensure_authorized message;
  match employee with
  | None => mret tt
  | Some employee =>
      shifts ← sheets (get_employee_shifts today (name employee) (Some 7) true);
      match shifts with
      | [] => answer "Немає заявок у статусі очікування за останні 7 днів." None
      | _ => answer (join (String.append nl nl) (map edit_line shifts)) None
      end
  end.

(** [for x in l: await f(x)] *)
Fixpoint for_each {A} (f : A -> H unit) (l : list A) : H unit :=
  match l with
  | [] => mret tt
  | a :: l' => _ ← f a; for_each f l'
  end.

Definition pending_text (shift : ShiftRecord) : string :=
  concat_all ["Заявка #"; str_of_Z (shift_id shift); nl;
              "Співробітник: "; employee_name shift; nl;
              "Дата: "; format_date (shift_date shift); nl;
              "Години: "; py_str (VFloat (shift_hours shift));
              " | Овертайм: "; py_str (VFloat (overtime_hours shift)); nl;
              "Коментар: "; or_dash (comment shift)].

(** [if not employee or not employee.is_manager] *)
Definition no_manager (employee : option Employee) : bool :=
  match employee with
  | Some employee => negb (is_manager employee)
  | None => true
  end.

Definition handle_manager_pending (message : Message) : H unit :=
  employee ← ensure_authorized message;
  match employee with
  | Some employee =>
      if negb (is_manager employee) then answer "Ця дія доступна лише керівникам." None
      else
        shifts ← sheets (get_pending_for_manager today (name employee));
        match shifts with
        | [] => answer "Немає заявок, що очікують підтвердження." None
        | _ =>
            for_each (fun shift =>
                        answer (pending_text shift)
                               (Some (manager_decision_keyboard (shift_id shift))))
                     shifts
        end
  | None => answer "Ця дія доступна лише керівникам." None
  end.

Definition subordinate_line (sub : Employee) : string :=
  concat_all [name sub; " — "; phone sub; nl;
              "Ставка зміни: "; py_str (VFloat (shift_rate sub));
              ", овертайм: "; py_str (VFloat (overtime_rate sub))].

Definition handle_subordinates (message : Message) : H unit :=
  employee ← ensure_authorized message;
  match employee with
  | Some employee =>
      if negb (is_manager employee) then answer "Ця дія доступна лише керівникам." None
      else
        subordinates ← sheets (list_subordinates (name employee));
        match subordinates with
        | [] => answer "У тебе поки немає підлеглих." None
        | _ => answer (join (String.append nl nl) (map subordinate_line subordinates)) None
        end
  | None => answer "Ця дія доступна лише керівникам." None
  end.

(** [settings.sheet_id] *)
Variable sheet_id : string.

Definition sheet_link : string :=
  String.append "https://docs.google.com/spreadsheets/d/" sheet_id.

Definition handle_sheet_link (message : Message) : H unit :=
  employee ← ensure_authorized message;
  match employee with
  | Some employee =>
      if negb (is_manager employee) then answer "Ця дія доступна лише керівникам." None
      else answer (String.append "Спільна таблиця: " sheet_link) None
  | None => answer "Ця дія доступна лише керівникам." None
  end.

(** The double quote of the help text. *)
Definition dq : string := String (ascii_of_nat 34) EmptyString.

Definition base_help : string :=
  concat_all
    ["Доступні дії:"; nl;
     "• "; dq; "Добавить новую смену"; dq; " — подати нову заявку."; nl;
     "• "; dq; "Редактировать поданую смену"; dq;
     " — редагувати заявку зі статусом «Очікує», подану не пізніше 7 днів тому."; nl;
     "• "; dq; "Мои смены (7 дней)"; dq; " — переглянути останні заявки."; nl;
     "• "; dq; "Заявки в ожидании"; dq; " — відкриті заявки за останні 7 днів."; nl].

Definition manager_help : string :=
  concat_all
    ["Меню керівника:"; nl;
     "• "; dq; "В очікуванні"; dq; " — заявки співробітників, що потребують рішення."; nl;
     "• "; dq; "Мої співробітники"; dq; " — список команди з контактами та ставками."; nl;
     "• "; dq; "Переглянути таблицю"; dq; " — швидкий перехід до Google Sheets."; nl;
     "Кнопки підтвердження/відхилення відкривають форму для коментаря."].

Definition handle_help (message : Message) : H unit :=
  employee ← get_employee (from_user message);
  let text :=
    if negb (no_manager employee) then concat_all [base_help; nl; manager_help]
    else base_help in
  answer text
         (Some match employee with
               | Some employee => employee_menu (is_manager employee)
               | None => share_contact_keyboard
               end).

(** ** The dispatcher

    A handler is registered with one filter; an update goes to the first
    registered handler whose filter passes, and to none when no filter does.
    [CommandStart()] is the filter of the library for the [/start] command. *)

Variable command_start : Message -> bool.

Inductive filter : Type :=
| CommandStart
| F_contact
| F_text (t : string)
| In_state (s : State).

Definition passes (f : filter) (message : Message) (contact : option Contact)
    (raw_state : option State) : bool :=
  match f with
  | CommandStart => command_start message
  | F_contact => bool_decide (is_Some contact)
  | F_text t => bool_decide (text message = Some t)
  | In_state s => bool_decide (raw_state = Some s)
  end.

(** The message handlers, in the order of their registration. *)
Definition message_handlers : list (filter * (Message -> option Contact -> H unit)) :=
  [(CommandStart, fun m _ => handle_start m);
   (F_contact, fun m c => match c with
                          | Some c => handle_contact m c
                          | None => mret tt
                          end);
   (F_text "Добавить новую смену", fun m _ => request_shift_date m);
   (In_state ShiftForm_date, fun m _ => handle_shift_date m);
   (In_state ShiftForm_shift_hours, fun m _ => handle_shift_hours m);
   (In_state ShiftForm_overtime_hours, fun m _ => handle_overtime_hours m);
   (In_state ShiftForm_comment, fun m _ => handle_shift_comment m);
   (F_text "Редактировать поданую смену", fun m _ => start_editing_shift m);
   (In_state ShiftEdit_select_shift, fun m _ => handle_edit_selection m);
   (In_state ShiftEdit_date, fun m _ => handle_edit_date m);
   (In_state ShiftEdit_shift_hours, fun m _ => handle_edit_shift_hours m);
   (In_state ShiftEdit_overtime_hours, fun m _ => handle_edit_overtime_hours m);
   (In_state ShiftEdit_comment, fun m _ => finalize_shift_edit m);
   (F_text "Мои смены (7 дней)", fun m _ => handle_recent_shifts m);
   (F_text "Заявки в ожидании", fun m _ => handle_pending_shifts m);
   (F_text "В очікуванні", fun m _ => handle_manager_pending m);
   (In_state ManagerComment_comment, fun m _ => finalize_manager_decision m);
   (F_text "Мої співробітники", fun m _ => handle_subordinates m);
   (F_text "Переглянути таблицю", fun m _ => handle_sheet_link m);
   (F_text "Помощь", fun m _ => handle_help m)].

(** [F.data.startswith("approve:") | F.data.startswith("decline:")] *)
Definition decision_filter (callback : CallbackQuery) : bool :=
  startswith (cb_data callback) "approve:" || startswith (cb_data callback) "decline:".

Definition feed_update (u : Update) : H unit := fun w =>
  match u with
  | message_update message contact =>
      match find (fun '(f, _) => passes f message contact (fsm_state (ctx w)))
                 message_handlers with
      | Some (_, handler) => handler message contact w
      | None => (Ok tt, w)
      end
  | callback_update callback =>
      if decision_filter callback then handle_manager_decision callback w else (Ok tt, w)
  end.

End Handlers.
End Bot.
Export Bot.

(** * Scenarios

    Concrete data for the examples below.  [repr_integral] prints NaN, the
    infinities and the integral floats below 10^16 as Python does, and ["?"]
    for any other float; the scenarios print no other float. *)

Module Scenario.

Definition repr_integral : FloatRepr := fun f =>
  match Prim2SF f with
  | S754_nan => "nan"
  | S754_infinity s => if s then "-inf" else "inf"
  | S754_zero s => if s then "-0.0" else "0.0"
  | S754_finite _ _ _ =>
      match py_int_of_float f with
      | Ok z =>
          if (Z.abs z <? 10 ^ 16)
             && match float_of_Z z with Ok g => PrimFloat.eqb g f | Raise _ => false end
          then String.append (str_of_Z z) ".0" else "?"
      | Raise _ => "?"
      end
  end.

Definition bob : Employee := mkEmployee "Bob" "380501234567" "Співробітник" 100 150 (Some "Ann").
Definition ann : Employee := mkEmployee "Ann" "380671112233" "Керівник" 200 300 None.

Definition bob_row : EmployeeRow :=
  mkEmployeeRow (VStr "Bob") (VInt 380501234567) (VStr "Співробітник") (VInt 100) (VInt 150)
    (VStr "Ann").
Definition ann_row : EmployeeRow :=
  mkEmployeeRow (VStr "Ann") (VInt 380671112233) (VStr "Керівник") (VInt 200) (VInt 300)
    (VStr "").

(** Shift 5 of Bob: 8 hours and 2 of overtime on 12.05.2024, pending. *)
Definition shift5 : ShiftRow :=
  mkShiftRow (VInt 5) (VStr "Bob") (VStr "12.05.2024") (VInt 2) (VInt 8) (VStr "")
    (VStr "12.05.2024 10:00") (VStr "Очікує") (VStr "") (VStr "") (VStr "Ann").

(** Shift 6 of Bob, approved earlier. *)
Definition shift6 : ShiftRow :=
  mkShiftRow (VInt 6) (VStr "Bob") (VStr "13.05.2024") (VInt 0) (VInt 8) (VStr "late")
    (VStr "13.05.2024 18:00") (VStr "Підтверджено") (VStr "13.05.2024 19:00") (VStr "ok")
    (VStr "Ann").

Definition st0 : Store := mkStore [bob_row; ann_row] [shift5; shift6] [].

Definition today0 : date := mkdate 2024 5 14.
Definition now0 : datetime := mkdatetime today0 9 30 12 0 (Some "Europe/Kyiv").

(** The records of the two rows of [st0]. *)
Definition record5 : ShiftRecord :=
  mkShiftRecord 2 5 "Bob" (mkdate 2024 5 12) 2 8 ""
    (Some (mkdatetime (mkdate 2024 5 12) 10 0 0 0 None)) "Очікує" None (Some "") (Some "Ann").

Definition record6 : ShiftRecord :=
  mkShiftRecord 3 6 "Bob" (mkdate 2024 5 13) 0 8 "late"
    (Some (mkdatetime (mkdate 2024 5 13) 18 0 0 0 None)) "Підтверджено"
    (Some (mkdatetime (mkdate 2024 5 13) 19 0 0 0 None)) (Some "ok") (Some "Ann").

(** An edit of shift 5. *)
Definition edit5 : ShiftInput :=
  mkShiftInput "Bob" (mkdate 2024 5 11) 7.5 1 "fixed" now0 (Some "Ann").

(** Bob submits 8 hours and 1.5 of overtime for 13.05.2024, at 09:30:12
    Kyiv time, with a comment that ends with a space. *)
Definition new_shift : ShiftInput :=
  mkShiftInput "Bob" (mkdate 2024 5 13) 8 1.5 "night shift " now0 (Some "Ann").

(** A shift row whose id, date and hour cells do not parse. *)
Definition malformed_row : ShiftRow :=
  mkShiftRow (VStr "n/a") (VStr "Bob") (VStr "yesterday") (VStr "two") (VStr "eight")
    (VStr "") (VStr "") (VStr "Очікує") (VStr "") (VStr "") (VStr "").

Definition malformed_store : Store := mkStore [bob_row; ann_row] [malformed_row] [].

#[local] Existing Instance repr_integral.

(** Bob (user 7) and Ann (user 8, a manager) are logged in; user 99 is not. *)
Definition registry0 : gmap Z Employee := <[7 := bob]> (<[8 := ann]> ∅).

Definition w0 : World := mkWorld registry0 (mkFSM None ∅) st0 [].

(** Bob opens the edit flow and selects shift 5 ... *)
Definition w_edit_started : World :=
  (start_editing_shift today0 (mkMessage 7 (Some "Редактировать поданую смену")) w0).2.
Definition w_edit_selected : World :=
  (handle_edit_selection today0 (mkMessage 7 (Some "#5")) w_edit_started).2.
(** ... then starts a submission instead. *)
Definition w_submission_started : World :=
  (request_shift_date (mkMessage 7 (Some "Добавить новую смену")) w_edit_selected).2.

(** Ann, with a form in progress, presses the approve button of shift 5. *)
Definition w_ann_form : World :=
  mkWorld registry0
    (mkFSM (Some ShiftForm_shift_hours)
       (<["shift_date" := VStr "2024-05-13"]>
          (<["employee_name" := VStr "Ann"]> (<["manager" := VNone]> ∅))))
    st0 [].
Definition w_ann_decision : World :=
  (handle_manager_decision (mkCallback 8 "approve:5") w_ann_form).2.

(** A session at the comment step of a submission whose user is not in the registry. *)
Definition w_anonymous_comment : World :=
  mkWorld registry0
    (mkFSM (Some ShiftForm_comment)
       (<["shift_date" := VStr "2024-05-13"]>
          (<["shift_hours" := VFloat 8]> (<["overtime_hours" := VFloat 0]> ∅))))
    st0 [].

(** A session at the comment step of a decision whose user, Bob, is no manager. *)
Definition w_staff_decision : World :=
  mkWorld registry0
    (mkFSM (Some ManagerComment_comment)
       (<["manager_action" := VStr "approve"]> (<["shift_id" := VInt 5]> ∅)))
    st0 [].

End Scenario.

(** * Properties *)

(** ** Pure views of the gateway reads *)

Definition value_of {A} (d : A) (r : result A) : A :=
  match r with Ok a => a | Raise _ => d end.

(** The cells of a shift row can be read: no call in [shift_of_row] raises. *)
Definition row_ok (row : ShiftRow) : bool :=
  is_ok (parse_int (c_id row)) && is_ok (strip_cell (c_name row))
  && is_ok (parse_float (c_overtime row)) && is_ok (parse_float (c_hours row))
  && is_ok (strip_cell (c_comment row)) && is_ok (strip_cell (c_status row))
  && is_ok (strip_cell (c_mgr_comment row)) && is_ok (strip_cell (c_mgr_name row)).

(** The shift id read from a row: [parse_int(cell) or 0]. *)
Definition row_shift_id (row : ShiftRow) : Z :=
  default 0 (value_of None (parse_int (c_id row))).

Section Views.
Context `{FloatRepr}.

(** The record [shift_of_row] makes of a readable row. *)
Definition record_of_row (today : date) (idx : Z) (row : ShiftRow) : ShiftRecord :=
  mkShiftRecord idx (row_shift_id row)
    (value_of "" (strip_cell (c_name row)))
    (default today (parse_date (c_date row)))
    (value_of 0%float (parse_float (c_overtime row)))
    (value_of 0%float (parse_float (c_hours row)))
    (value_of "" (strip_cell (c_comment row)))
    (parse_date_time (c_submitted row))
    (value_of "" (strip_cell (c_status row)))
    (parse_date_time (c_approved row))
    (Some (value_of "" (strip_cell (c_mgr_comment row))))
    (or_None (value_of "" (strip_cell (c_mgr_name row)))).

(** The records of the rows, numbered from sheet line [start]. *)
Definition records_of_rows (today : date) (start : Z) (rows : list ShiftRow) : list ShiftRecord :=
  imap (fun i row => record_of_row today (start + Z.of_nat i) row) rows.

(** [_fetch_employees] as a function of the employee rows. *)
Definition employees_of_rows (rows : list EmployeeRow) : result (list Employee) :=
  name_by_phone ← fill_name_by_phone rows ∅;
  traverse (employee_of_row name_by_phone) rows.

(** [_next_id] as a function of the cells below the header. *)
Definition next_id_of (cells : list pyval) : result Z :=
  numeric ← numeric_ids (map (fun v => VStr (py_str v)) cells);
  Ok match numeric with
     | [] => 1
     | z :: zs => list_max z zs + 1
     end.

End Views.

(** A time the sheet can hold: a date of a four-digit year and a time of day. *)
Definition valid_time (t : datetime) : bool :=
  valid_date (dt_date t) && (1000 <=? year (dt_date t))
  && (0 <=? hour t) && (hour t <=? 23) && (0 <=? minute t) && (minute t <=? 59).

(** What the sheet keeps of a time: the minute, without zone. *)
Definition to_minute (t : datetime) : datetime :=
  mkdatetime (dt_date t) (hour t) (minute t) 0 0 None.

(** The ids [_next_id] takes into account, in the words of the
    specification: the cells that are not empty and parse. *)
Definition parseable_ids (cells : list pyval) : list Z :=
  flat_map (fun v => if truthy v
                     then match parse_int v with
                          | Ok (Some z) => [z]
                          | _ => []
                          end
                     else []) cells.

(** [n] is the largest of [ids] plus one, or 1 when there is none. *)
Definition is_next_id (ids : list Z) (n : Z) : Prop :=
  (ids = [] /\ n = 1) \/ (In (n - 1) ids /\ Forall (fun x => x <= n - 1) ids).

(** A cell [float] rejects. *)
Definition unparseable (v : pyval) : Prop :=
  py_float v = Raise ValueError \/ py_float v = Raise TypeError.

(** The row [append_shift] writes. *)
Definition row_of_input (next_id : Z) (shift : ShiftInput) : ShiftRow :=
  mkShiftRow (VInt next_id) (VStr (in_employee_name shift))
    (VStr (format_date (in_shift_date shift)))
    (VFloat (in_overtime_hours shift)) (VFloat (in_shift_hours shift))
    (VStr (in_comment shift)) (VStr (format_datetime (in_submitted_at shift)))
    (VStr SHIFT_STATUS_PENDING) (VStr "") (VStr "")
    (VStr (or_empty (in_manager_name shift))).

(** The record read back from it: the input as the sheet keeps it. *)
Definition record_of_input (idx next_id : Z) (shift : ShiftInput) : ShiftRecord :=
  mkShiftRecord idx next_id (strip (in_employee_name shift)) (in_shift_date shift)
    (in_overtime_hours shift) (in_shift_hours shift) (strip (in_comment shift))
    (Some (to_minute (in_submitted_at shift))) SHIFT_STATUS_PENDING None (Some "")
    (or_None (strip (or_empty (in_manager_name shift)))).

(** The row after [update_H_K], and after [update_C_G]. *)
Definition decided (h i j k : pyval) (r : ShiftRow) : ShiftRow :=
  mkShiftRow (c_id r) (c_name r) (c_date r) (c_overtime r) (c_hours r) (c_comment r)
    (c_submitted r) h i j k.

Definition edited (c d e f g : pyval) (r : ShiftRow) : ShiftRow :=
  mkShiftRow (c_id r) (c_name r) c d e f g (c_status r) (c_approved r) (c_mgr_comment r)
    (c_mgr_name r).

(** ** The runtime model on values computed by Python itself *)

Section RuntimeChecks.

Example float_of_string_checks :
  map float_of_string
    ["1.5"; " 12 "; "1e3"; "1_000.25"; "1__0"; "0.1"; "1e400"; "-0"; "."; "5."; ".5"; "1e";
     "abc"; ""; "+7"; "nan"; "-inf"; "Infinity"; "infinit"; "0x10"; "4.9e-324";
     "2.4703282292062327e-324"; "2.4703282292062328e-324"; "1.7976931348623159e308";
     "9007199254740993"]
  = [Some 1.5; Some 12; Some 1000; Some 1000.25; None; Some 0x1.999999999999ap-4;
     Some infinity; Some (-0); None; Some 5; Some 0.5; None;
     None; None; Some 7; Some nan; Some neg_infinity; Some infinity; None; None;
     Some 0x0.0000000000001p-1022;
     Some 0; Some 0x0.0000000000001p-1022; Some infinity;
     Some 9007199254740992]%float.
Proof. vm_compute. reflexivity. Qed.

Example int_float_checks :
  float_of_Z (2 ^ 53 + 1) = Ok 9007199254740992%float
  /\ float_of_Z (10 ^ 400) = Raise OverflowError
  /\ py_int_of_float 3.75 = Ok 3 /\ py_int_of_float (-3.75) = Ok (-3)
  /\ py_int_of_float nan = Raise ValueError /\ py_int_of_float infinity = Raise OverflowError
  /\ int_of_string " +1_000 " = Some 1000 /\ int_of_string "5.0" = None.
Proof. repeat split; vm_compute; reflexivity. Qed.

Example date_checks :
  toordinal (mkdate 2024 2 29) = 738945
  /\ fromordinal 738945 = mkdate 2024 2 29
  /\ fromordinal 1 = mkdate 1 1 1 /\ fromordinal MAXORDINAL = mkdate 9999 12 31
  /\ date_sub_days (mkdate 2024 3 1) 1 = Ok (mkdate 2024 2 29)
  /\ date_sub_days (mkdate 2023 3 1) 1 = Ok (mkdate 2023 2 28)
  /\ date_sub_days (mkdate 2024 1 3) 7 = Ok (mkdate 2023 12 27)
  /\ date_sub_days (mkdate 1 1 5) 7 = Raise OverflowError.
Proof. repeat split; vm_compute; reflexivity. Qed.

Example strptime_checks :
  map (fun text => strptime text "%d.%m.%Y %H:%M")
    ["12.05.2024 09:30"; "1.5.2024 9:3"; "12.05.2024"; "31.02.2024 10:00";
     "12.05.2024  7:05"; "12.05.2024 07:055"; "29.02.2023 23:59"; "12.05.2024 24:00"]
  = [Ok (mkdatetime (mkdate 2024 5 12) 9 30 0 0 None);
     Ok (mkdatetime (mkdate 2024 5 1) 9 3 0 0 None);
     Raise ValueError; Raise ValueError;
     Ok (mkdatetime (mkdate 2024 5 12) 7 5 0 0 None);
     Raise ValueError; Raise ValueError; Raise ValueError]
  /\ strptime "2024-05-12" "%Y-%m-%d" = Ok (midnight (mkdate 2024 5 12))
  /\ strptime "311.2.2024" "%d.%m.%Y" = Raise ValueError
  /\ strptime "12.05.0000" "%d.%m.%Y" = Raise ValueError
  /\ strftime (mkdatetime (mkdate 2024 5 2) 9 3 44 0 None) "%d.%m.%Y %H:%M"
     = "02.05.2024 09:03".
Proof. repeat split; vm_compute; reflexivity. Qed.

Example text_checks :
  strip "  a b  " = "a b" /\ lower "Керівник" = "керівник" /\ lower "КЕРІВНИК" = "керівник"
  /\ digits_only "+38 (050) 123-45-67" = "380501234567"
  /\ split_colon "" "approve:5" = ["approve"; "5"] /\ str_of_Z (-120) = "-120".
Proof. repeat split; vm_compute; reflexivity. Qed.

(** Text outside ASCII: digits of other scripts are decimal digits, a
    superscript is a digit for [isdigit] but not for [int], the no-break space
    (bytes 194, 160) is white space, the unit separator (byte 31) is white
    space for [strip] but not for [float] and [int]. *)
Example unicode_checks :
  len "٠٥٠١٢٣٤٥٦٧" = 10%nat /\ String.length "٠٥٠١٢٣٤٥٦٧" = 20%nat
  /\ digits_only "тел. ٠٥٠ 12" = "٠٥٠12"
  /\ isdigit "٥" = true /\ isdigit "²" = true /\ isdigit "5a" = false /\ isdigit "" = false
  /\ int_of_string "٥" = Some 5 /\ int_of_string "²" = None
  /\ float_of_string "٨.٥" = Some 8.5%float /\ float_of_string "1_٠" = Some 10%float
  /\ strptime "1٥.05.2024" "%d.%m.%Y" = Ok (midnight (mkdate 2024 5 15))
  /\ strptime "٣1.05.2024" "%d.%m.%Y" = Raise ValueError
  /\ (let nbsp := String (ascii_of_nat 194) (String (ascii_of_nat 160) "") in
      strip (nbsp ++ "1" ++ nbsp) = "1" /\ float_of_string (nbsp ++ "1") = Some 1%float
      /\ int_of_string ("1" ++ nbsp) = Some 1)
  /\ (let us := String (ascii_of_nat 31) "" in
      strip (us ++ "1") = "1" /\ float_of_string (us ++ "1") = None
      /\ int_of_string (us ++ "1") = None).
Proof. repeat split; vm_compute; reflexivity. Qed.

End RuntimeChecks.

Ltac run := unfold mbind, mret, M_bind, M_ret, lift.

Section GatewayFacts.
Context `{FloatRepr}.

Lemma is_ok_true {A} (r : result A) : is_ok r = true -> exists a, r = Ok a.
Proof. destruct r; [eauto|discriminate]. Qed.

Lemma shift_of_row_inv today idx row r :
  shift_of_row today idx row = Ok r -> row_ok row = true /\ r = record_of_row today idx row.
Proof.
  unfold shift_of_row, row_ok, record_of_row, row_shift_id, mbind, result_bind.
  destruct (parse_int (c_id row)); [|discriminate].
  destruct (strip_cell (c_name row)); [|discriminate].
  destruct (parse_float (c_overtime row)); [|discriminate].
  destruct (parse_float (c_hours row)); [|discriminate].
  destruct (strip_cell (c_comment row)); [|discriminate].
  destruct (strip_cell (c_status row)); [|discriminate].
  destruct (strip_cell (c_mgr_comment row)); [|discriminate].
  destruct (strip_cell (c_mgr_name row)); [|discriminate].
  intros [= <-]. split; reflexivity.
Qed.

Lemma shift_of_row_ok today idx row :
  row_ok row = true -> shift_of_row today idx row = Ok (record_of_row today idx row).
Proof.
  unfold shift_of_row, row_ok, record_of_row, row_shift_id, mbind, result_bind.
  destruct (parse_int (c_id row)); [|discriminate].
  destruct (strip_cell (c_name row)); [|discriminate].
  destruct (parse_float (c_overtime row)); [|discriminate].
  destruct (parse_float (c_hours row)); [|discriminate].
  destruct (strip_cell (c_comment row)); [|discriminate].
  destruct (strip_cell (c_status row)); [|discriminate].
  destruct (strip_cell (c_mgr_comment row)); [|discriminate].
  destruct (strip_cell (c_mgr_name row)); [|discriminate].
  reflexivity.
Qed.

Lemma records_of_rows_cons today start row rows :
  records_of_rows today start (row :: rows) =
  record_of_row today start row :: records_of_rows today (start + 1) rows.
Proof.
  unfold records_of_rows. simpl. f_equal.
  - f_equal. lia.
  - apply imap_ext. intros i x _. simpl. f_equal. lia.
Qed.

Lemma shifts_of_rows_ok today start rows :
  forallb row_ok rows = true ->
  shifts_of_rows today start rows = Ok (records_of_rows today start rows).
Proof.
  revert start. induction rows as [|row rows IH]; intros start Hok; [reflexivity|].
  simpl in Hok. apply andb_prop in Hok as [Hrow Hrows].
  rewrite records_of_rows_cons. simpl. unfold mbind, result_bind.
  rewrite (shift_of_row_ok _ _ _ Hrow), (IH _ Hrows). reflexivity.
Qed.

Lemma shifts_of_rows_inv today start rows rs :
  shifts_of_rows today start rows = Ok rs ->
  forallb row_ok rows = true /\ rs = records_of_rows today start rows.
Proof.
  revert start rs. induction rows as [|row rows IH]; intros start rs.
  - simpl. intros [= <-]. split; reflexivity.
  - simpl. unfold mbind, result_bind.
    destruct (shift_of_row today start row) as [r|] eqn:Hr; [|discriminate].
    destruct (shifts_of_rows today (start + 1) rows) as [rs'|] eqn:Hrs; [|discriminate].
    intros [= <-]. apply shift_of_row_inv in Hr as [Hok ->].
    apply IH in Hrs as [Hoks ->]. rewrite Hok, Hoks, records_of_rows_cons. split; reflexivity.
Qed.

(** Reads leave the store alone and depend on their own sheet only. *)
Lemma _fetch_shift_records_eq today st :
  _fetch_shift_records today st = (shifts_of_rows today 2 (shifts st), st).
Proof. reflexivity. Qed.

Lemma _fetch_employees_eq st :
  _fetch_employees st = (employees_of_rows (employees st), st).
Proof.
  unfold _fetch_employees, employees_of_rows, get_employee_records. run.
  destruct (fill_name_by_phone (employees st) ∅); reflexivity.
Qed.

Lemma _next_id_eq ws st :
  _next_id ws st =
  (next_id_of match ws with
              | EMPLOYEES_SHEET => map e_name (employees st)
              | SHIFTS_SHEET => map c_id (shifts st)
              | ACCRUALS_SHEET => map a_id (accruals st)
              end, st).
Proof.
  unfold _next_id, next_id_of, col_values_1. run.
  destruct ws; simpl;
    match goal with |- context [numeric_ids ?l] => destruct (numeric_ids l) as [[|]|] end;
    reflexivity.
Qed.

(** Where [find] stops in an indexed map. *)
Lemma find_imap_Some {A B} (p : B -> bool) (G : nat -> A -> B) (l : list A) (b : B) :
  find p (imap G l) = Some b ->
  exists i a, l !! i = Some a /\ b = G i a /\ p (G i a) = true
              /\ forall j a', (j < i)%nat -> l !! j = Some a' -> p (G j a') = false.
Proof.
  revert G. induction l as [|x l IH]; intros G; simpl; [discriminate|].
  destruct (p (G 0%nat x)) eqn:Hp.
  - intros [= <-]. exists 0%nat, x. repeat split; try assumption. intros j a' Hj. lia.
  - intros Hf. apply IH in Hf as (i & a & Hi & -> & Hpa & Hbefore).
    exists (S i), a. repeat split; try assumption.
    intros [|j] a' Hj Hl; simpl in Hl.
    + injection Hl as <-. exact Hp.
    + apply (Hbefore j a'); [lia|exact Hl].
Qed.

Lemma find_imap_at {A B} (p : B -> bool) (G : nat -> A -> B) (l : list A) i a :
  l !! i = Some a -> p (G i a) = true ->
  (forall j a', (j < i)%nat -> l !! j = Some a' -> p (G j a') = false) ->
  find p (imap G l) = Some (G i a).
Proof.
  revert G i. induction l as [|x l IH]; intros G i Hi Hp Hbefore; [discriminate|].
  simpl. destruct i as [|i]; simpl in Hi.
  - injection Hi as ->. rewrite Hp. reflexivity.
  - rewrite (Hbefore 0%nat x); [|lia|reflexivity].
    apply (IH (G ∘ S) i); try assumption.
    intros j a' Hj Hl. apply (Hbefore (S j) a'); [lia|exact Hl].
Qed.

Lemma row_pos_index (i : nat) : row_pos (2 + Z.of_nat i) = i.
Proof. unfold row_pos. lia. Qed.

Lemma editable_in_find records emp sid threshold :
  editable_in records emp sid threshold =
  match find (fun r => shift_id r =? sid) records with
  | None => None
  | Some record =>
      if negb (String.eqb (employee_name record) emp)
         || negb (String.eqb (status record) SHIFT_STATUS_PENDING)
         || date_ltb (reference_date record) threshold
      then None else Some record
  end.
Proof.
  induction records as [|r rs IH]; simpl; [reflexivity|].
  destruct (shift_id r =? sid); simpl; [|exact IH].
  destruct (String.eqb (employee_name r) emp); simpl; [|reflexivity].
  destruct (String.eqb (status r) SHIFT_STATUS_PENDING); simpl; [|reflexivity].
  destruct (date_ltb (reference_date r) threshold); reflexivity.
Qed.

Lemma forallb_alter {A} (p : A -> bool) (g : A -> A) (i : nat) (l : list A) :
  (forall a, p a = true -> p (g a) = true) ->
  forallb p l = true -> forallb p (alter g i l) = true.
Proof.
  intros Hg. revert i. induction l as [|x l IH]; intros i Hl; [destruct i; exact Hl|].
  simpl in Hl. apply andb_prop in Hl as [Hx Hl].
  destruct i as [|i].
  - change (p (g x) && forallb p l = true). rewrite (Hg _ Hx), Hl. reflexivity.
  - change (p x && forallb p (alter g i l) = true). rewrite Hx, (IH i Hl). reflexivity.
Qed.

Lemma row_ok_decided h i j k row :
  row_ok row = true -> row_ok (decided (VStr h) (VStr i) (VStr j) (VStr k) row) = true.
Proof.
  unfold row_ok, decided. simpl. intros Hok.
  repeat (apply andb_prop in Hok as [Hok ?]).
  repeat (apply andb_true_intro; split); try assumption; reflexivity.
Qed.

Lemma row_ok_edited c d e f g row :
  row_ok row = true -> row_ok (edited (VStr c) (VFloat d) (VFloat e) (VStr f) (VStr g) row) = true.
Proof.
  unfold row_ok, edited. simpl. intros Hok.
  repeat (apply andb_prop in Hok as [Hok ?]).
  repeat (apply andb_true_intro; split); try assumption; reflexivity.
Qed.

(** The target of a decision: the place of the first record with the id. *)
Lemma find_target today rows sid target :
  find (fun r => shift_id r =? sid) (records_of_rows today 2 rows) = Some target ->
  exists i row, rows !! i = Some row /\ target = record_of_row today (2 + Z.of_nat i) row
                /\ row_shift_id row = sid
                /\ forall j row', (j < i)%nat -> rows !! j = Some row' -> row_shift_id row' <> sid.
Proof.
  intros Hf. apply find_imap_Some in Hf as (i & row & Hi & -> & Hp & Hbefore).
  exists i, row. repeat split; try assumption.
  - simpl in Hp. lia.
  - intros j row' Hj Hl. specialize (Hbefore j row' Hj Hl). simpl in Hbefore. lia.
Qed.

Lemma _append_accrual_spec shift st emps :
  employees_of_rows (employees st) = Ok emps ->
  _append_accrual shift st =
    match find (fun e => String.eqb (name e) (employee_name shift)) emps with
    | None => (Ok tt, st)
    | Some employee =>
        match next_id_of (map a_id (accruals st)) with
        | Ok next_id =>
            let shift_sum := (shift_hours shift * shift_rate employee)%float in
            let overtime_sum := (overtime_hours shift * overtime_rate employee)%float in
            (Ok tt,
             mkStore (employees st) (shifts st)
               (accruals st ++
                [mkAccrualRow (VInt next_id) (VStr (name employee))
                   (VStr (format_date (shift_date shift))) (VFloat (overtime_hours shift))
                   (VFloat (shift_rate employee)) (VFloat (overtime_rate employee))
                   (VFloat shift_sum) (VFloat overtime_sum)
                   (VFloat (shift_sum + overtime_sum)%float)]))
        | Raise e => (Raise e, st)
        end
    end.
Proof.
  intros Hemps. unfold _append_accrual, fetch_employee_by_name. run.
  rewrite _fetch_employees_eq, Hemps.
  destruct (find _ emps) as [employee|]; [|reflexivity].
  rewrite _next_id_eq. destruct (next_id_of _); reflexivity.
Qed.

(** A decision on a pending target: the cells H to K are written, then the
    accrual is appended when the status is the approved one. *)
Lemma update_shift_status_pending today st sid new_status mgr cmt approved records target :
  _fetch_shift_records today st = (Ok records, st) ->
  find (fun r => shift_id r =? sid) records = Some target ->
  status target = SHIFT_STATUS_PENDING ->
  let st1 := mkStore (employees st)
               (alter (decided (VStr new_status) (VStr (format_datetime approved))
                         (VStr cmt) (VStr mgr))
                      (row_pos (row_index target)) (shifts st))
               (accruals st) in
  let updated :=
    mkShiftRecord (row_index target) (shift_id target) (employee_name target)
      (shift_date target) (overtime_hours target) (shift_hours target) (comment target)
      (submitted_at target) new_status (Some approved) (Some cmt) (Some mgr) in
  update_shift_status today sid new_status mgr cmt approved st =
    if String.eqb new_status SHIFT_STATUS_APPROVED then
      match _append_accrual updated st1 with
      | (Ok _, st2) => (Ok (Some updated, true), st2)
      | (Raise e, st2) => (Raise e, st2)
      end
    else (Ok (Some updated, true), st1).
Proof.
  intros Hfetch Hfind Hpending st1 updated.
  unfold update_shift_status. run. rewrite Hfetch, Hfind, Hpending.
  change (String.eqb SHIFT_STATUS_PENDING SHIFT_STATUS_PENDING) with true.
  cbn [negb]. unfold update_H_K. fold st1 updated.
  destruct (String.eqb new_status SHIFT_STATUS_APPROVED); [|reflexivity].
  destruct (_append_accrual updated _) as [[[]|e] st2]; reflexivity.
Qed.

(** A decision on a target that is no longer pending changes nothing. *)
Lemma update_shift_status_decided today st sid new_status mgr cmt approved records target :
  _fetch_shift_records today st = (Ok records, st) ->
  find (fun r => shift_id r =? sid) records = Some target ->
  String.eqb (status target) SHIFT_STATUS_PENDING = false ->
  update_shift_status today sid new_status mgr cmt approved st = (Ok (Some target, false), st).
Proof.
  intros Hfetch Hfind Hstatus. unfold update_shift_status. run.
  rewrite Hfetch, Hfind, Hstatus. reflexivity.
Qed.

(** C1. [update_shift_status] ([decide_shift]) called twice on the same
    shift id: when the record is pending at the first call and the requested
    status is a decision (approved or declined), on a store whose sheets can
    be read, the first call returns changed = true and the record with the
    requested status; the second call, whatever it requests, returns
    changed = false and the record with the status written by the first
    call, and leaves the store exactly as the first call left it. *)
Theorem decide_shift_twice today1 today2 st sid s1 mgr1 c1 t1 s2 mgr2 c2 t2
    records target emps next_id :
  _fetch_shift_records today1 st = (Ok records, st) ->
  find (fun r => shift_id r =? sid) records = Some target ->
  status target = SHIFT_STATUS_PENDING ->
  s1 = SHIFT_STATUS_APPROVED \/ s1 = SHIFT_STATUS_DECLINED ->
  _fetch_employees st = (Ok emps, st) ->
  _next_id ACCRUALS_SHEET st = (Ok next_id, st) ->
  exists r1 st1 r2,
    update_shift_status today1 sid s1 mgr1 c1 t1 st = (Ok (Some r1, true), st1)
    /\ status r1 = s1
    /\ update_shift_status today2 sid s2 mgr2 c2 t2 st1 = (Ok (Some r2, false), st1)
    /\ status r2 = s1 /\ shift_id r2 = sid.
Proof.
  intros Hfetch Hfind Hpending Hs1 Hemps Hnext.
  pose proof Hfetch as Hrows. rewrite _fetch_shift_records_eq in Hrows.
  injection Hrows as Hrows. apply shifts_of_rows_inv in Hrows as [Hok ->].
  destruct (find_target _ _ _ _ Hfind) as (i & row & Hi & Htarget & Hsid & Hbefore).
  rewrite _fetch_employees_eq in Hemps. injection Hemps as Hemps.
  rewrite _next_id_eq in Hnext. injection Hnext as Hnext.
  set (g := decided (VStr s1) (VStr (format_datetime t1)) (VStr c1) (VStr mgr1)).
  assert (Hidx : row_pos (row_index target) = i).
  { rewrite Htarget. simpl. apply row_pos_index. }
  (* the store after the first call, whichever the decision *)
  assert (Hfirst : exists r1 st1,
    update_shift_status today1 sid s1 mgr1 c1 t1 st = (Ok (Some r1, true), st1)
    /\ status r1 = s1 /\ shifts st1 = alter g i (shifts st)).
  { rewrite (update_shift_status_pending _ _ _ _ _ _ _ _ _ Hfetch Hfind Hpending).
    rewrite Hidx. fold g.
    destruct (String.eqb s1 SHIFT_STATUS_APPROVED) eqn:Happ.
    - erewrite _append_accrual_spec by (simpl; exact Hemps). simpl.
      destruct (find _ emps) as [e|].
      + rewrite Hnext. eexists _, _. repeat split; reflexivity.
      + eexists _, _. repeat split; reflexivity.
    - eexists _, _. repeat split; reflexivity. }
  destruct Hfirst as (r1 & st1 & Hcall1 & Hstatus1 & Hshifts1).
  assert (Hok1 : forallb row_ok (shifts st1) = true).
  { rewrite Hshifts1. apply forallb_alter; [|exact Hok].
    intros a. apply row_ok_decided. }
  assert (Hfetch2 : _fetch_shift_records today2 st1
                    = (Ok (records_of_rows today2 2 (shifts st1)), st1)).
  { rewrite _fetch_shift_records_eq, (shifts_of_rows_ok _ _ _ Hok1). reflexivity. }
  set (r2 := record_of_row today2 (2 + Z.of_nat i) (g row)).
  assert (Hfind2 : find (fun r => shift_id r =? sid) (records_of_rows today2 2 (shifts st1))
                   = Some r2).
  { unfold records_of_rows.
    apply (find_imap_at (fun r => shift_id r =? sid)
             (fun j rw => record_of_row today2 (2 + Z.of_nat j) rw) (shifts st1) i (g row)).
    - rewrite Hshifts1, list_lookup_alter_eq, Hi. reflexivity.
    - simpl. unfold row_shift_id, g, decided. simpl. fold (row_shift_id row). lia.
    - intros j row' Hj Hl. rewrite Hshifts1, list_lookup_alter_ne in Hl by lia.
      simpl. specialize (Hbefore j row' Hj Hl). lia. }
  assert (Hst2 : status r2 = s1).
  { unfold r2, g, decided. simpl. destruct Hs1 as [-> | ->]; vm_compute; reflexivity. }
  exists r1, st1, r2. split; [exact Hcall1|]. split; [exact Hstatus1|].
  split; [|split; [exact Hst2|exact Hsid]].
  apply (update_shift_status_decided _ _ _ _ _ _ _ _ _ Hfetch2 Hfind2).
  rewrite Hst2. destruct Hs1 as [-> | ->]; vm_compute; reflexivity.
Qed.

(** C2. An approval ([update_shift_status] with the approved status on a
    pending shift) writes the decision cells and returns changed = true;
    when an employee with the shift's employee name is read from the
    employees sheet at that moment, exactly one accrual row is appended, with
    shift_sum = shift_hours * shift_rate, overtime_sum = overtime_hours *
    overtime_rate and total_sum = shift_sum + overtime_sum for that
    employee's rates; when there is none, no accrual row is appended. *)
Theorem approval_appends_one_accrual today st sid mgr cmt approved records target emps :
  _fetch_shift_records today st = (Ok records, st) ->
  find (fun r => shift_id r =? sid) records = Some target ->
  status target = SHIFT_STATUS_PENDING ->
  _fetch_employees st = (Ok emps, st) ->
  let decided_rows :=
    alter (decided (VStr SHIFT_STATUS_APPROVED) (VStr (format_datetime approved))
             (VStr cmt) (VStr mgr))
          (row_pos (row_index target)) (shifts st) in
  let updated :=
    mkShiftRecord (row_index target) (shift_id target) (employee_name target)
      (shift_date target) (overtime_hours target) (shift_hours target) (comment target)
      (submitted_at target) SHIFT_STATUS_APPROVED (Some approved) (Some cmt) (Some mgr) in
  match find (fun e => String.eqb (name e) (employee_name target)) emps with
  | Some employee =>
      forall next_id, _next_id ACCRUALS_SHEET st = (Ok next_id, st) ->
      let shift_sum := (shift_hours target * shift_rate employee)%float in
      let overtime_sum := (overtime_hours target * overtime_rate employee)%float in
      update_shift_status today sid SHIFT_STATUS_APPROVED mgr cmt approved st =
        (Ok (Some updated, true),
         mkStore (employees st) decided_rows
           (accruals st ++
            [mkAccrualRow (VInt next_id) (VStr (name employee))
               (VStr (format_date (shift_date target))) (VFloat (overtime_hours target))
               (VFloat (shift_rate employee)) (VFloat (overtime_rate employee))
               (VFloat shift_sum) (VFloat overtime_sum)
               (VFloat (shift_sum + overtime_sum)%float)]))
  | None =>
      update_shift_status today sid SHIFT_STATUS_APPROVED mgr cmt approved st =
        (Ok (Some updated, true), mkStore (employees st) decided_rows (accruals st))
  end.
Proof.
  intros Hfetch Hfind Hpending Hemps decided_rows updated.
  rewrite _fetch_employees_eq in Hemps. injection Hemps as Hemps.
  pose proof (update_shift_status_pending today st sid SHIFT_STATUS_APPROVED mgr cmt approved
                records target Hfetch Hfind Hpending) as Hcall.
  cbv zeta in Hcall. fold decided_rows updated in Hcall.
  change (String.eqb SHIFT_STATUS_APPROVED SHIFT_STATUS_APPROVED) with true in Hcall.
  cbv iota in Hcall.
  erewrite _append_accrual_spec in Hcall by (simpl; exact Hemps).
  simpl in Hcall.
  destruct (find _ emps) as [employee|].
  - intros next_id Hnext shift_sum overtime_sum.
    rewrite _next_id_eq in Hnext. injection Hnext as Hnext.
    rewrite Hnext in Hcall. exact Hcall.
  - exact Hcall.
Qed.

(** What [update_shift_details] did when it reports success. *)
Lemma update_shift_details_success today st sid emp updated max_days st' :
  update_shift_details today sid emp updated max_days st = (Ok true, st') ->
  exists i row,
    shifts st !! i = Some row /\ row_shift_id row = sid
    /\ forallb row_ok (shifts st) = true
    /\ st' = mkStore (employees st)
               (alter (edited (VStr (format_date (in_shift_date updated)))
                         (VFloat (in_overtime_hours updated))
                         (VFloat (in_shift_hours updated))
                         (VStr (in_comment updated))
                         (VStr (format_datetime (in_submitted_at updated))))
                      i (shifts st))
               (accruals st).
Proof.
  unfold update_shift_details, get_editable_shift. run.
  rewrite _fetch_shift_records_eq.
  destruct (shifts_of_rows today 2 (shifts st)) as [records|] eqn:Hrows; [|discriminate].
  apply shifts_of_rows_inv in Hrows as [Hok ->].
  destruct (date_sub_days today max_days) as [threshold|]; [|discriminate].
  rewrite editable_in_find.
  destruct (find _ (records_of_rows today 2 (shifts st))) as [record|] eqn:Hfind;
    [|discriminate].
  destruct (find_target _ _ _ _ Hfind) as (i & row & Hi & -> & Hsid & _).
  destruct (_ || _); [discriminate|].
  unfold update_C_G. cbn [row_index record_of_row]. rewrite row_pos_index.
  intros [= <-]. exists i, row. repeat split; assumption.
Qed.

(** C10. A successful [update_shift_details] writes the cells of the shift
    date, overtime hours, shift hours, comment and submission time of the
    target row and nothing else: the other rows of the shift sheet, the
    employees and the accruals are unchanged, and in the target row the cells
    of the id, the employee name, the status, the approval time, the manager
    comment and the manager name are unchanged, so that the records read
    afterwards carry the same values in these fields. *)
Theorem update_shift_details_frame today st sid emp updated max_days st' :
  update_shift_details today sid emp updated max_days st = (Ok true, st') ->
  exists i row row',
    shifts st !! i = Some row /\ row_shift_id row = sid /\ shifts st' !! i = Some row'
    (* written *)
    /\ c_date row' = VStr (format_date (in_shift_date updated))
    /\ c_overtime row' = VFloat (in_overtime_hours updated)
    /\ c_hours row' = VFloat (in_shift_hours updated)
    /\ c_comment row' = VStr (in_comment updated)
    /\ c_submitted row' = VStr (format_datetime (in_submitted_at updated))
    (* left as they were *)
    /\ c_id row' = c_id row /\ c_name row' = c_name row /\ c_status row' = c_status row
    /\ c_approved row' = c_approved row /\ c_mgr_comment row' = c_mgr_comment row
    /\ c_mgr_name row' = c_mgr_name row
    /\ length (shifts st') = length (shifts st)
    /\ (forall j, j <> i -> shifts st' !! j = shifts st !! j)
    /\ employees st' = employees st /\ accruals st' = accruals st
    (* the records read before and after *)
    /\ forall today' records,
         _fetch_shift_records today' st = (Ok records, st) ->
         exists records',
           _fetch_shift_records today' st' = (Ok records', st')
           /\ length records' = length records
           /\ forall j r, records !! j = Some r ->
                exists r', records' !! j = Some r'
                  /\ row_index r' = row_index r /\ shift_id r' = shift_id r
                  /\ employee_name r' = employee_name r /\ status r' = status r
                  /\ approved_at r' = approved_at r
                  /\ manager_comment r' = manager_comment r
                  /\ manager_name r' = manager_name r
                  /\ (j <> i -> r' = r).
Proof.
  intros Hcall. apply update_shift_details_success in Hcall as (i & row & Hi & Hsid & Hok & ->).
  set (g := edited _ _ _ _ _).
  exists i, row, (g row). simpl.
  split; [exact Hi|]. split; [exact Hsid|].
  split; [rewrite list_lookup_alter_eq, Hi; reflexivity|].
  do 11 (split; [reflexivity|]).
  split; [apply length_alter|].
  split; [intros j Hj; apply list_lookup_alter_ne; congruence|].
  split; [reflexivity|]. split; [reflexivity|].
  intros today' records Hfetch.
  rewrite _fetch_shift_records_eq in Hfetch. injection Hfetch as Hfetch.
  apply shifts_of_rows_inv in Hfetch as [_ ->].
  exists (records_of_rows today' 2 (alter g i (shifts st))).
  split.
  { rewrite _fetch_shift_records_eq. simpl. rewrite shifts_of_rows_ok; [reflexivity|].
    apply forallb_alter; [|exact Hok]. intros a. apply row_ok_edited. }
  split.
  { unfold records_of_rows. rewrite !length_imap. apply length_alter. }
  intros j r Hr. unfold records_of_rows in *.
  rewrite list_lookup_imap in Hr.
  destruct (shifts st !! j) as [rowj|] eqn:Hj; [|discriminate]. injection Hr as <-.
  destruct (decide (j = i)) as [->|Hne].
  - exists (record_of_row today' (2 + Z.of_nat i) (g rowj)).
    rewrite list_lookup_imap, list_lookup_alter_eq, Hj.
    repeat split; try reflexivity. intros Hne. congruence.
  - exists (record_of_row today' (2 + Z.of_nat j) rowj).
    rewrite list_lookup_imap, list_lookup_alter_ne, Hj by congruence.
    repeat split; reflexivity.
Qed.

(** C5. [get_editable_shift] ([find_editable_shift] of the specification):
    on a readable shift sheet, with [threshold] the day [max_days] days
    before today, the call returns nothing when the record with the shift id
    (the first one, should the id occur twice) belongs to another employee,
    or is not pending, or has a reference date (submission date if present,
    else shift date) before the threshold; otherwise it returns that record.
    The store is left as it was. *)
Theorem get_editable_shift_spec today st emp sid max_days records threshold record :
  _fetch_shift_records today st = (Ok records, st) ->
  date_sub_days today max_days = Ok threshold ->
  find (fun r => shift_id r =? sid) records = Some record ->
  get_editable_shift today emp sid max_days st =
    (Ok (if negb (String.eqb (employee_name record) emp)
            || negb (String.eqb (status record) SHIFT_STATUS_PENDING)
            || date_ltb (reference_date record) threshold
         then None else Some record), st).
Proof.
  intros Hfetch Hthr Hfind.
  unfold get_editable_shift. run. rewrite Hfetch, Hthr.
  rewrite editable_in_find, Hfind. reflexivity.
Qed.

(** With unique ids, the record with the id is the one [find] stops at. *)
Lemma find_unique_id (records : list ShiftRecord) sid record :
  List.NoDup (map shift_id records) -> In record records -> shift_id record = sid ->
  find (fun r => shift_id r =? sid) records = Some record.
Proof.
  induction records as [|r rs IH]; intros Hnd Hin Hsid; [destruct Hin|].
  simpl in Hnd. apply List.NoDup_cons_iff in Hnd as [Hnotin Hnd]. simpl.
  destruct Hin as [->|Hin].
  - rewrite Hsid, Z.eqb_refl. reflexivity.
  - destruct (Z.eqb_spec (shift_id r) sid) as [Heq|_]; [|apply IH; assumption].
    exfalso. apply Hnotin. rewrite Heq, <- Hsid. apply in_map, Hin.
Qed.

(** No record with the id: nothing is returned. *)
Lemma get_editable_shift_unknown today st emp sid max_days records threshold :
  _fetch_shift_records today st = (Ok records, st) ->
  date_sub_days today max_days = Ok threshold ->
  find (fun r => shift_id r =? sid) records = None ->
  get_editable_shift today emp sid max_days st = (Ok None, st).
Proof.
  intros Hfetch Hthr Hfind.
  unfold get_editable_shift. run. rewrite Hfetch, Hthr.
  rewrite editable_in_find, Hfind. reflexivity.
Qed.

End GatewayFacts.

(** ** Round trips through the text of a cell *)

Ltac divlia := Z.to_euclidean_division_equations; lia.

Section RoundTrip.
Context `{FloatRepr}.

(** *** ASCII text: one byte, one character *)

Lemma ascii_byte c :
  (N_of_ascii c <? 128)%N = true ->
  is_continuation c = false /\ code_point (String c EmptyString) = N_of_ascii c.
Proof. destruct c as [[] [] [] [] [] [] [] []]; intros Hc; try discriminate Hc; split; reflexivity. Qed.

Lemma chars_ascii l :
  forallb (fun c => (N_of_ascii c <? 128)%N) l = true ->
  chars (string_of_list_ascii l) = map (fun c => String c EmptyString) l.
Proof.
  induction l as [|c l IH]; [reflexivity|].
  cbn [forallb]. intros Hl. apply andb_prop in Hl as [_ Hl].
  cbn [string_of_list_ascii chars map]. rewrite (IH Hl).
  destruct l as [|c' l]; [reflexivity|].
  cbn [forallb] in Hl. apply andb_prop in Hl as [Hc' _].
  cbn [map]. destruct (ascii_byte c' Hc') as [-> _]. reflexivity.
Qed.

Lemma code_points_ascii l :
  forallb (fun c => (N_of_ascii c <? 128)%N) l = true ->
  code_points (string_of_list_ascii l) = map N_of_ascii l.
Proof.
  intros Hl. unfold code_points. rewrite (chars_ascii l Hl), map_map.
  induction l as [|c l IH]; [reflexivity|].
  cbn [forallb] in Hl. apply andb_prop in Hl as [Hc Hl].
  cbn [map]. rewrite (IH Hl). destruct (ascii_byte c Hc) as [_ ->]. reflexivity.
Qed.

Lemma unchars_singles l :
  unchars (map (fun c => String c EmptyString) l) = string_of_list_ascii l.
Proof. induction l as [|c l IH]; [reflexivity|]. cbn [map unchars]. rewrite IH. reflexivity. Qed.

Lemma digit_of_Z_code k : 0 <= k <= 9 -> N_of_ascii (digit_of_Z k) = (48 + Z.to_N k)%N.
Proof.
  intros Hk.
  assert (Hn : exists n, (n <= 9)%nat /\ k = Z.of_nat n) by (exists (Z.to_nat k); lia).
  destruct Hn as (n & Hn & ->).
  do 10 (destruct n as [|n]; [reflexivity|]). lia.
Qed.

Lemma digit_of_Z_spec k :
  0 <= k <= 9 ->
  is_decimal (N_of_ascii (digit_of_Z k)) = true /\ dv (N_of_ascii (digit_of_Z k)) = k.
Proof.
  intros Hk.
  assert (Hn : exists n, (n <= 9)%nat /\ k = Z.of_nat n) by (exists (Z.to_nat k); lia).
  destruct Hn as (n & Hn & ->).
  do 10 (destruct n as [|n]; [split; reflexivity|]). lia.
Qed.

Lemma digit_of_Z_plain k :
  0 <= k <= 9 ->
  (N_of_ascii (digit_of_Z k) <? 128)%N = true
  /\ is_space_char (String (digit_of_Z k) EmptyString) = false.
Proof.
  intros Hk.
  assert (Hn : exists n, (n <= 9)%nat /\ k = Z.of_nat n) by (exists (Z.to_nat k); lia).
  destruct Hn as (n & Hn & ->).
  do 10 (destruct n as [|n]; [split; reflexivity|]). lia.
Qed.

(** Text that neither starts nor ends with white space is its own [strip]. *)
Lemma strip_fixed c1 l c2 :
  forallb (fun c => (N_of_ascii c <? 128)%N) (c1 :: l ++ [c2]) = true ->
  is_space_char (String c1 EmptyString) = false ->
  is_space_char (String c2 EmptyString) = false ->
  strip (string_of_list_ascii (c1 :: l ++ [c2])) = string_of_list_ascii (c1 :: l ++ [c2]).
Proof.
  intros Hl H1 H2. unfold strip. rewrite (chars_ascii _ Hl).
  cbn [map lstrip_chars]. rewrite H1.
  unfold rstrip_chars.
  change (String c1 EmptyString :: map (fun c => String c EmptyString) (l ++ [c2]))
    with (map (fun c => String c EmptyString) ((c1 :: l) ++ [c2])).
  rewrite map_app, rev_app_distr. cbn [map rev app lstrip_chars]. rewrite H2.
  cbn [rev]. rewrite rev_app_distr, rev_involutive. cbn [rev app].
  change (String c1 EmptyString :: map (fun c => String c EmptyString) l ++ [String c2 EmptyString])
    with (map (fun c => String c EmptyString) (c1 :: l) ++ map (fun c => String c EmptyString) [c2]).
  rewrite <- map_app, unchars_singles. reflexivity.
Qed.


Lemma matches_d n fmt rest f :
  1 <= n <= 31 ->
  matches (D_d :: D_lit "." :: fmt) (map N_of_ascii (pad2 n) ++ 46%N :: rest) f
  = matches fmt rest (set_group D_d n f).
Proof.
  intros Hn.
  assert (Hk : exists k, (k <= 30)%nat /\ n = 1 + Z.of_nat k) by (exists (Z.to_nat (n - 1)); lia).
  destruct Hk as (k & Hk & ->). clear Hn.
  do 31 (destruct k as [|k]; [simpl; rewrite ?app_nil_r; reflexivity|]).
  lia.
Qed.

Lemma matches_m n fmt rest f :
  1 <= n <= 12 ->
  matches (D_m :: D_lit "." :: fmt) (map N_of_ascii (pad2 n) ++ 46%N :: rest) f
  = matches fmt rest (set_group D_m n f).
Proof.
  intros Hn.
  assert (Hk : exists k, (k <= 11)%nat /\ n = 1 + Z.of_nat k) by (exists (Z.to_nat (n - 1)); lia).
  destruct Hk as (k & Hk & ->). clear Hn.
  do 12 (destruct k as [|k]; [simpl; rewrite ?app_nil_r; reflexivity|]).
  lia.
Qed.

Lemma matches_Y y fmt rest f :
  1000 <= y <= 9999 ->
  matches (D_Y :: fmt) (map N_of_ascii (fmt_year y) ++ rest) f
  = matches fmt rest (set_group D_Y y f).
Proof.
  intros Hy. unfold fmt_year.
  destruct (Z.ltb_spec y 10); [lia|]. destruct (Z.ltb_spec y 100); [lia|].
  destruct (Z.ltb_spec y 1000); [lia|].
  unfold pad2.
  destruct (digit_of_Z_spec (y / 100 / 10)) as [Ha Hva]; [divlia|].
  destruct (digit_of_Z_spec (y / 100 mod 10)) as [Hb Hvb]; [divlia|].
  destruct (digit_of_Z_spec (y mod 100 / 10)) as [Hc Hvc]; [divlia|].
  destruct (digit_of_Z_spec (y mod 100 mod 10)) as [Hd Hvd]; [divlia|].
  cbn [app map matches step flat_map]. rewrite Ha, Hb, Hc, Hd. cbn [andb flat_map].
  rewrite Hva, Hvb, Hvc, Hvd, app_nil_r. do 2 f_equal. divlia.
Qed.

Lemma matches_nil rest f : matches [] rest f = [(f, rest)].
Proof. reflexivity. Qed.

Lemma matches_H n fmt rest f :
  0 <= n <= 23 ->
  matches (D_H :: D_lit ":" :: fmt) (map N_of_ascii (pad2 n) ++ 58%N :: rest) f
  = matches fmt rest (set_group D_H n f).
Proof.
  intros Hn.
  assert (Hk : exists k, (k <= 23)%nat /\ n = Z.of_nat k) by (exists (Z.to_nat n); lia).
  destruct Hk as (k & Hk & ->). clear Hn.
  do 24 (destruct k as [|k]; [simpl; rewrite ?app_nil_r; reflexivity|]).
  lia.
Qed.

Lemma matches_M_end n f :
  0 <= n <= 59 ->
  exists others, matches [D_M] (map N_of_ascii (pad2 n)) f = (set_group D_M n f, []) :: others.
Proof.
  intros Hn.
  assert (Hk : exists k, (k <= 59)%nat /\ n = Z.of_nat k) by (exists (Z.to_nat n); lia).
  destruct Hk as (k & Hk & ->). clear Hn.
  do 60 (destruct k as [|k]; [eexists; simpl; reflexivity|]).
  lia.
Qed.

(** White space before the hour. *)
Lemma matches_space_H n fmt rest f :
  0 <= n <= 23 ->
  matches (D_space :: fmt) (32%N :: map N_of_ascii (pad2 n) ++ rest) f
  = matches fmt (map N_of_ascii (pad2 n) ++ rest) f.
Proof.
  intros Hn.
  assert (Hk : exists k, (k <= 23)%nat /\ n = Z.of_nat k) by (exists (Z.to_nat n); lia).
  destruct Hk as (k & Hk & ->). clear Hn.
  do 24 (destruct k as [|k]; [simpl; rewrite ?app_nil_r; reflexivity|]).
  lia.
Qed.


Lemma days_in_month_le y m : days_in_month y m <= 31.
Proof.
  unfold days_in_month.
  destruct (Z.eq_dec m 2) as [->|H2]; [destruct (is_leap y); lia|].
  destruct m as [|p|p]; try lia.
  do 4 (destruct p as [p|p|]; try lia). 
Qed.

Lemma valid_date_bounds d :
  valid_date d = true ->
  1 <= year d <= 9999 /\ 1 <= month d <= 12 /\ 1 <= day d <= 31.
Proof.
  unfold valid_date, MINYEAR, MAXYEAR. intros Hv.
  do 5 (apply andb_prop in Hv as [Hv ?]).
  pose proof (days_in_month_le (year d) (month d)). lia.
Qed.

Lemma valid_time_bounds t :
  valid_time t = true ->
  valid_date (dt_date t) = true /\ 1000 <= year (dt_date t)
  /\ 0 <= hour t <= 23 /\ 0 <= minute t <= 59.
Proof.
  unfold valid_time. intros Hv. do 5 (apply andb_prop in Hv as [Hv ?]).
  split; [exact Hv|]. lia.
Qed.

Lemma format_date_chars d :
  format_date d =
  string_of_list_ascii
    (pad2 (day d) ++ "."%char :: pad2 (month d) ++ "."%char :: fmt_year (year d)).
Proof.
  unfold format_date, date_strftime, strftime. f_equal; simpl; rewrite ?app_nil_r; reflexivity.
Qed.

Lemma format_datetime_chars t :
  format_datetime t =
  string_of_list_ascii
    (pad2 (day (dt_date t)) ++ "."%char :: pad2 (month (dt_date t)) ++ "."%char
     :: fmt_year (year (dt_date t)) ++ " "%char :: pad2 (hour t) ++ ":"%char :: pad2 (minute t)).
Proof.
  unfold format_datetime, strftime. f_equal; try (simpl; rewrite ?app_nil_r; reflexivity).
Qed.

Lemma fmt_year_4 y :
  1000 <= y <= 9999 -> fmt_year y = pad2 (y / 100) ++ pad2 (y mod 100).
Proof.
  intros Hy. unfold fmt_year.
  destruct (Z.ltb_spec y 10); [lia|]. destruct (Z.ltb_spec y 100); [lia|].
  destruct (Z.ltb_spec y 1000); [lia|]. reflexivity.
Qed.

Lemma pad2_ascii n :
  0 <= n <= 99 -> forallb (fun c => (N_of_ascii c <? 128)%N) (pad2 n) = true.
Proof.
  intros Hn. unfold pad2. cbn [forallb].
  destruct (digit_of_Z_plain (n / 10)) as [-> _]; [divlia|].
  destruct (digit_of_Z_plain (n mod 10)) as [-> _]; [divlia|]. reflexivity.
Qed.

(** The text of a date and of a time is ASCII. *)
Lemma format_date_ascii d :
  valid_date d = true -> 1000 <= year d ->
  forallb (fun c => (N_of_ascii c <? 128)%N)
    (pad2 (day d) ++ "."%char :: pad2 (month d) ++ "."%char :: fmt_year (year d)) = true.
Proof.
  intros Hv Hy. destruct (valid_date_bounds d Hv) as (Hyr & Hm & Hd).
  rewrite fmt_year_4 by lia.
  repeat (rewrite !forallb_app; cbn [forallb]).
  rewrite !pad2_ascii by divlia. reflexivity.
Qed.

Lemma format_datetime_ascii t :
  valid_time t = true ->
  forallb (fun c => (N_of_ascii c <? 128)%N)
    (pad2 (day (dt_date t)) ++ "."%char :: pad2 (month (dt_date t)) ++ "."%char
     :: fmt_year (year (dt_date t)) ++ " "%char :: pad2 (hour t) ++ ":"%char
     :: pad2 (minute t)) = true.
Proof.
  intros Hv. apply valid_time_bounds in Hv as (Hv & Hy & Hh & Hmi).
  destruct (valid_date_bounds _ Hv) as (Hyr & Hm & Hd).
  rewrite fmt_year_4 by lia.
  repeat (rewrite !forallb_app; cbn [forallb]).
  rewrite !pad2_ascii by divlia. reflexivity.
Qed.

Lemma format_date_strip d :
  valid_date d = true -> 1000 <= year d -> strip (format_date d) = format_date d.
Proof.
  intros Hv Hy. pose proof (format_date_ascii d Hv Hy) as Ha.
  destruct (valid_date_bounds d Hv) as (Hyr & Hm & Hd).
  rewrite format_date_chars. revert Ha. rewrite fmt_year_4 by lia. unfold pad2. cbn [app].
  intros Ha.
  apply (strip_fixed _ [_; _; _; _; _; _; _; _] _); [exact Ha| |];
    apply digit_of_Z_plain; divlia.
Qed.

Lemma format_datetime_strip t :
  valid_time t = true -> strip (format_datetime t) = format_datetime t.
Proof.
  intros Hvt. pose proof (format_datetime_ascii t Hvt) as Ha.
  apply valid_time_bounds in Hvt as (Hv & Hy & Hh & Hmi).
  destruct (valid_date_bounds _ Hv) as (Hyr & Hm & Hd).
  rewrite format_datetime_chars. revert Ha. rewrite fmt_year_4 by lia. unfold pad2. cbn [app].
  intros Ha.
  apply (strip_fixed _ [_; _; _; _; _; _; _; _; _; _; _; _; _; _] _); [exact Ha| |];
    apply digit_of_Z_plain; divlia.
Qed.

Lemma strptime_chars l fmt :
  forallb (fun c => (N_of_ascii c <? 128)%N) l = true ->
  strptime (string_of_list_ascii l) fmt =
  match compile_format false (list_ascii_of_string fmt) with
  | None => Raise ValueError
  | Some ds =>
      match matches ds (map N_of_ascii l) found_default with
      | (f, []) :: _ =>
          let d := mkdate (f_Y f) (f_m f) (f_d f) in
          if valid_date d then Ok (mkdatetime d (f_H f) (f_M f) 0 0 None)
          else Raise ValueError
      | _ => Raise ValueError
      end
  end.
Proof. intros Hl. unfold strptime. rewrite (code_points_ascii l Hl). reflexivity. Qed.

Lemma string_of_list_ascii_nonempty c l : String.eqb (string_of_list_ascii (c :: l)) "" = false.
Proof. reflexivity. Qed.

Lemma compile_datetime_format :
  compile_format false (list_ascii_of_string DATETIME_FORMAT)
  = Some [D_d; D_lit "."; D_m; D_lit "."; D_Y; D_space; D_H; D_lit ":"; D_M].
Proof. vm_compute. reflexivity. Qed.

Lemma compile_date_format :
  compile_format false (list_ascii_of_string "%d.%m.%Y")
  = Some [D_d; D_lit "."; D_m; D_lit "."; D_Y].
Proof. vm_compute. reflexivity. Qed.

(** The text of a date parses back to the date, by the second format. *)
Lemma parse_date_time_format_date d :
  valid_date d = true -> 1000 <= year d ->
  parse_date_time (VStr (format_date d)) = Some (midnight d).
Proof.
  intros Hv Hy. destruct (valid_date_bounds d Hv) as (Hyr & Hm & Hd).
  pose proof (format_date_ascii d Hv Hy) as Ha.
  unfold parse_date_time. cbn [py_str]. rewrite (format_date_strip d Hv Hy).
  rewrite format_date_chars.
  unfold formats, first_format. rewrite !(strptime_chars _ _ Ha).
  rewrite compile_datetime_format, compile_date_format.
  unfold pad2 at 1. cbn [app]. rewrite string_of_list_ascii_nonempty.
  change (digit_of_Z (day d / 10) :: digit_of_Z (day d mod 10) :: ?l) with (pad2 (day d) ++ l).
  repeat (rewrite !map_app; cbn [map]).
  replace (map N_of_ascii (fmt_year (year d)))
    with (map N_of_ascii (fmt_year (year d)) ++ []) by apply app_nil_r.
  change (N_of_ascii ".") with 46%N.
  rewrite !matches_d, !matches_m, !matches_Y by lia.
  change (matches [D_space; D_H; D_lit ":"; D_M] [] ?f) with (@nil (found * list N)).
  rewrite matches_nil. cbv beta iota zeta.
  cbn [set_group f_Y f_m f_d f_H f_M found_default].
  destruct d as [y m dd]. cbn [year month day] in *. rewrite Hv. reflexivity.
Qed.

Lemma parse_date_format_date d :
  valid_date d = true -> 1000 <= year d -> parse_date (VStr (format_date d)) = Some d.
Proof.
  intros Hv Hy. unfold parse_date. rewrite (parse_date_time_format_date d Hv Hy). reflexivity.
Qed.

(** The text of a time parses back to the time, to the minute. *)
Lemma parse_date_time_format_datetime t :
  valid_time t = true -> parse_date_time (VStr (format_datetime t)) = Some (to_minute t).
Proof.
  intros Hvt. pose proof (format_datetime_ascii t Hvt) as Ha.
  destruct (valid_time_bounds _ Hvt) as (Hv & Hy & Hh & Hmi).
  destruct (valid_date_bounds _ Hv) as (Hyr & Hm & Hd).
  unfold parse_date_time. cbn [py_str]. rewrite (format_datetime_strip t Hvt).
  rewrite format_datetime_chars.
  unfold formats, first_format. rewrite !(strptime_chars _ _ Ha).
  rewrite compile_datetime_format.
  unfold pad2 at 1. cbn [app]. rewrite string_of_list_ascii_nonempty.
  change (digit_of_Z (day (dt_date t) / 10) :: digit_of_Z (day (dt_date t) mod 10) :: ?l)
    with (pad2 (day (dt_date t)) ++ l).
  repeat (rewrite !map_app; cbn [map]).
  change (N_of_ascii ".") with 46%N. change (N_of_ascii ":") with 58%N.
  change (N_of_ascii " ") with 32%N.
  rewrite matches_d, matches_m, matches_Y, matches_space_H, matches_H by lia.
  destruct (matches_M_end (minute t)
              (set_group D_H (hour t) (set_group D_Y (year (dt_date t))
                 (set_group D_m (month (dt_date t))
                    (set_group D_d (day (dt_date t)) found_default)))))
    as (others & ->); [lia|].
  cbv beta iota zeta. cbn [set_group f_Y f_m f_d f_H f_M found_default].
  destruct t as [[y m dd] hh mm ss us tz]. cbn [year month day dt_date hour minute] in *.
  rewrite Hv. reflexivity.
Qed.

End RoundTrip.

Section IntFloat.

Lemma digits2_pos_lower p : 2 ^ (Z.pos (digits2_pos p) - 1) <= Z.pos p.
Proof.
  induction p as [p IH|p IH|]; simpl digits2_pos.
  - rewrite Pos2Z.inj_succ. replace (Z.succ (Z.pos (digits2_pos p)) - 1)
      with (Z.succ (Z.pos (digits2_pos p) - 1)) by lia.
    rewrite Z.pow_succ_r by lia. lia.
  - rewrite Pos2Z.inj_succ. replace (Z.succ (Z.pos (digits2_pos p)) - 1)
      with (Z.succ (Z.pos (digits2_pos p) - 1)) by lia.
    rewrite Z.pow_succ_r by lia. lia.
  - simpl. lia.
Qed.

Lemma digits2_pos_le_53 p : Z.pos p < 2 ^ 53 -> Z.pos (digits2_pos p) <= 53.
Proof.
  intros Hp. destruct (Z_le_gt_dec (Z.pos (digits2_pos p)) 53) as [|Hgt]; [assumption|].
  pose proof (digits2_pos_lower p) as Hl.
  assert (2 ^ 53 <= 2 ^ (Z.pos (digits2_pos p) - 1)) by (apply Z.pow_le_mono_r; lia).
  lia.
Qed.

Lemma iter_xO_digits p k :
  digits2_pos (Pos.iter xO p k) = (digits2_pos p + k)%positive.
Proof.
  induction k as [|k IH] using Pos.peano_ind.
  - simpl. lia.
  - rewrite Pos.iter_succ. simpl. rewrite IH. lia.
Qed.

Lemma iter_xO_value p k : Z.pos (Pos.iter xO p k) = Z.pos p * 2 ^ Z.pos k.
Proof.
  induction k as [|k IH] using Pos.peano_ind.
  - simpl. lia.
  - rewrite Pos.iter_succ, Pos2Z.inj_succ, Z.pow_succ_r by lia.
    change (Z.pos (Pos.iter xO p k)~0) with (2 * Z.pos (Pos.iter xO p k)). rewrite IH. lia.
Qed.

(** A mantissa of exactly 53 bits with an exponent in range is already rounded. *)
Lemma binary_round_aux_exact s m e :
  Z.pos (digits2_pos m) = 53 -> -52 <= e <= 0 ->
  binary_round_aux prec emax s (Z.pos m) e loc_Exact = S754_finite s m e.
Proof.
  intros Hd He. unfold binary_round_aux, shr_fexp, fexp, emin, Zdigits2, prec, emax.
  rewrite Hd.
  replace (Z.max (53 + e - 53) (3 - 1024 - 53) - e) with 0 by lia.
  cbn [shr shr_record_of_loc shr_m loc_of_shr_record round_nearest_even Zdigits2].
  rewrite Hd.
  replace (Z.max (53 + e - 53) (3 - 1024 - 53) - e) with 0 by lia.
  cbn [shr shr_m].
  destruct (Z.leb_spec e (1024 - 53)); [reflexivity|lia].
Qed.

Lemma binary_round_small s p :
  Z.pos p < 2 ^ 53 ->
  exists m e, binary_round prec emax s p 0 = S754_finite s m e
    /\ Z.pos (digits2_pos m) = 53 /\ -52 <= e <= 0 /\ Z.pos m = Z.pos p * 2 ^ (- e).
Proof.
  intros Hp. pose proof (digits2_pos_le_53 p Hp) as Hd.
  unfold binary_round, shl_align, fexp, emin, prec, emax.
  replace (Z.max (Z.pos (digits2_pos p) + 0 - 53) (3 - 1024 - 53) - 0)
    with (Z.pos (digits2_pos p) - 53) by lia.
  replace (Z.max (Z.pos (digits2_pos p) + 0 - 53) (3 - 1024 - 53))
    with (Z.pos (digits2_pos p) - 53) by lia.
  destruct (Z.pos (digits2_pos p) - 53) as [|k|k] eqn:Hk; [|lia|].
  - exists p, 0. split; [apply binary_round_aux_exact; lia|]. repeat split; lia.
  - exists (Pos.iter xO p k), (Z.neg k).
    assert (Hdig : Z.pos (digits2_pos (Pos.iter xO p k)) = 53).
    { rewrite iter_xO_digits. lia. }
    split; [apply (binary_round_aux_exact s _ (Z.neg k)); lia|].
    split; [exact Hdig|]. split; [lia|]. rewrite iter_xO_value. reflexivity.
Qed.

Lemma valid_53 s m e :
  Z.pos (digits2_pos m) = 53 -> -52 <= e <= 0 ->
  SpecFloat.valid_binary prec emax (S754_finite s m e) = true.
Proof.
  intros Hd He. unfold SpecFloat.valid_binary, bounded, canonical_mantissa, fexp, emin, prec, emax.
  rewrite Hd. apply andb_true_intro. split; [apply Z.eqb_eq|apply Z.leb_le]; lia.
Qed.

Lemma float_of_Z_small z :
  - 2 ^ 53 < z < 2 ^ 53 ->
  exists f, float_of_Z z = Ok f /\ py_int_of_float f = Ok z.
Proof.
  intros Hz. unfold float_of_Z, float_of_SF, binary_normalize.
  destruct z as [|p|p].
  - eexists. split; vm_compute; reflexivity.
  - destruct (binary_round_small false p) as (m & e & -> & Hd & He & Hm); [lia|].
    pose proof (valid_53 false m e Hd He) as Hvalid.
    assert (Hinf : is_infinity (SF2Prim (S754_finite false m e)) = false).
    { unfold is_infinity. rewrite FloatAxioms.eqb_spec, FloatAxioms.abs_spec, (Prim2SF_SF2Prim _ Hvalid). reflexivity. }
    rewrite Hinf. eexists. split; [reflexivity|].
    unfold py_int_of_float. rewrite (Prim2SF_SF2Prim _ Hvalid).
    destruct (Z.leb_spec 0 e).
    + assert (e = 0) by lia. subst e. f_equal. simpl in Hm. lia.
    + f_equal. rewrite Hm. apply Z.div_mul. apply Z.pow_nonzero; lia.
  - destruct (binary_round_small true p) as (m & e & -> & Hd & He & Hm); [lia|].
    pose proof (valid_53 true m e Hd He) as Hvalid.
    assert (Hinf : is_infinity (SF2Prim (S754_finite true m e)) = false).
    { unfold is_infinity. rewrite FloatAxioms.eqb_spec, FloatAxioms.abs_spec, (Prim2SF_SF2Prim _ Hvalid). reflexivity. }
    rewrite Hinf. eexists. split; [reflexivity|].
    unfold py_int_of_float. rewrite (Prim2SF_SF2Prim _ Hvalid).
    destruct (Z.leb_spec 0 e).
    + assert (e = 0) by lia. subst e. f_equal. simpl in Hm. lia.
    + f_equal. rewrite Hm, Z.div_mul by (apply Z.pow_nonzero; lia). lia.
Qed.

Lemma parse_int_VInt z : - 2 ^ 53 < z < 2 ^ 53 -> parse_int (VInt z) = Ok (Some z).
Proof.
  intros Hz. destruct (float_of_Z_small z Hz) as (f & Hf & Hi).
  unfold parse_int. cbn [py_float]. rewrite Hf. unfold mbind, result_bind. rewrite Hi.
  reflexivity.
Qed.

End IntFloat.

(** ** Appending a shift and reading it back *)

Section AppendShift.
Context `{FloatRepr}.

Lemma numeric_ids_parseable cells ids :
  numeric_ids cells = Ok ids -> ids = parseable_ids cells.
Proof.
  revert ids. induction cells as [|v cells IH]; intros ids; simpl.
  - intros [= <-]. reflexivity.
  - destruct (truthy v); [|apply IH].
    unfold mbind, result_bind.
    destruct (parse_int v) as [n|]; [|discriminate].
    destruct (numeric_ids cells) as [ns|]; [|discriminate].
    intros [= <-]. rewrite (IH ns eq_refl). destruct n; reflexivity.
Qed.

Lemma list_max_spec z zs :
  In (list_max z zs) (z :: zs) /\ Forall (fun x => x <= list_max z zs) (z :: zs).
Proof.
  unfold list_max. revert z. induction zs as [|y zs IH]; intros z; simpl.
  - split; [left; reflexivity|]. constructor; [lia|constructor].
  - destruct (IH (Z.max z y)) as [Hin Hall]. split.
    + simpl in Hin. destruct Hin as [Hin|Hin]; [|right; right; exact Hin].
      rewrite <- Hin. destruct (Z.max_spec z y) as [[_ ->]|[_ ->]]; simpl; auto.
    + inversion Hall as [|m l Hm Hl]. subst.
      constructor; [lia|]. constructor; [lia|exact Hl].
Qed.

Lemma next_id_is_next ids :
  is_next_id ids match ids with [] => 1 | z :: zs => list_max z zs + 1 end.
Proof.
  destruct ids as [|z zs]; [left; split; reflexivity|]. right.
  replace (list_max z zs + 1 - 1) with (list_max z zs) by lia.
  apply list_max_spec.
Qed.

Lemma records_of_rows_app today start rows row :
  records_of_rows today start (rows ++ [row]) =
  records_of_rows today start rows
  ++ [record_of_row today (start + Z.of_nat (length rows)) row].
Proof.
  unfold records_of_rows. rewrite imap_app. simpl. do 3 f_equal. lia.
Qed.

Lemma record_of_row_of_input today idx next_id shift :
  - 2 ^ 53 < next_id < 2 ^ 53 ->
  valid_date (in_shift_date shift) = true -> 1000 <= year (in_shift_date shift) ->
  valid_time (in_submitted_at shift) = true ->
  row_ok (row_of_input next_id shift) = true
  /\ record_of_row today idx (row_of_input next_id shift) = record_of_input idx next_id shift.
Proof.
  intros Hid Hd Hy Ht. split.
  - unfold row_ok, row_of_input. cbn [c_id c_name c_overtime c_hours c_comment c_status
      c_mgr_comment c_mgr_name]. rewrite (parse_int_VInt _ Hid). reflexivity.
  - unfold record_of_row, record_of_input, row_shift_id, row_of_input.
    cbn [c_id c_name c_date c_overtime c_hours c_comment c_submitted c_status c_approved
         c_mgr_comment c_mgr_name].
    rewrite (parse_int_VInt _ Hid), (parse_date_format_date _ Hd Hy),
      (parse_date_time_format_datetime _ Ht).
    reflexivity.
Qed.

(** C6 (amended). On a shift sheet that can be read, for an input with a
    valid shift date and submission time (four-digit years): [append_shift]
    returns the largest parseable id of the id column plus one, or 1 when no
    cell of the column is non-empty and parses, and appends one row with the
    pending status; when that id is below 2^53, [get_employee_shifts] for
    the input's employee name (without surrounding white space), with no
    [days_back], then returns a record with that id and the pending status
    whose shift date, shift hours and overtime hours are the input's, whose
    employee name, comment and manager name are the input's without
    surrounding white space, and whose submission time is the input's to the
    minute, without seconds and time zone. *)
Theorem append_shift_then_list today st shift ids :
  forallb row_ok (shifts st) = true ->
  numeric_ids (map (fun v => VStr (py_str v)) (map c_id (shifts st))) = Ok ids ->
  valid_date (in_shift_date shift) = true -> 1000 <= year (in_shift_date shift) ->
  valid_time (in_submitted_at shift) = true ->
  exists next_id,
    ids = parseable_ids (map (fun v => VStr (py_str v)) (map c_id (shifts st)))
    /\ is_next_id ids next_id
    /\ let st1 := mkStore (employees st) (shifts st ++ [row_of_input next_id shift])
                    (accruals st) in
       append_shift shift st = (Ok next_id, st1)
       /\ (- 2 ^ 53 < next_id < 2 ^ 53 ->
           exists records,
             get_employee_shifts today (strip (in_employee_name shift)) None false st1
               = (Ok records, st1)
             /\ In (record_of_input (2 + Z.of_nat (length (shifts st))) next_id shift)
                  records).
Proof.
  intros Hok Hids Hd Hy Ht.
  exists (match ids with [] => 1 | z :: zs => list_max z zs + 1 end).
  split; [apply numeric_ids_parseable, Hids|].
  split; [apply next_id_is_next|].
  set (next_id := match ids with [] => 1 | z :: zs => list_max z zs + 1 end).
  cbv zeta. split.
  - unfold append_shift. run. rewrite _next_id_eq. unfold next_id_of.
    unfold mbind, result_bind. rewrite Hids. reflexivity.
  - intros Hid.
    destruct (record_of_row_of_input today (2 + Z.of_nat (length (shifts st))) next_id shift
                Hid Hd Hy Ht) as [Hrow Hrec].
    eexists. split.
    + unfold get_employee_shifts. run. rewrite _fetch_shift_records_eq.
      cbn [shifts]. rewrite shifts_of_rows_ok.
      * reflexivity.
      * rewrite forallb_app, Hok. simpl. rewrite Hrow. reflexivity.
    + apply filter_In. split.
      * rewrite records_of_rows_app, Hrec. apply in_or_app. right. left. reflexivity.
      * unfold record_of_input. cbn [employee_name status]. rewrite String.eqb_refl.
        reflexivity.
Qed.

End AppendShift.

(** ** Parsing and sanitizing *)

Section ParsingFacts.

Lemma startswith_zero_380 digits :
  startswith digits "0" = true -> startswith (String.append "38" digits) "380" = true.
Proof.
  destruct digits as [|c d]; cbn; [discriminate|].
  destruct (Ascii.eqb c "0") eqn:Hc; [|discriminate].
  apply Ascii.eqb_eq in Hc. subst c. reflexivity.
Qed.

(** C8 (amended). [sanitize_phone] keeps the digits of the input only; a
    10-digit result starting with "0" is prefixed with "38"; a result that
    starts with "380", and any other non-empty digit string, is returned
    unchanged; an input without digits gives no result. *)
Theorem sanitize_phone_spec (raw : string) :
  let digits := digits_only raw in
  sanitize_phone (Some raw) =
    if String.eqb digits "" then None
    else if startswith digits "0" && (len digits =? 10)%nat
         then Some (String.append "38" digits)
         else Some digits.
Proof.
  intros digits. unfold sanitize_phone. fold digits.
  destruct (String.eqb raw "") eqn:Hraw.
  - apply String.eqb_eq in Hraw. subst raw. reflexivity.
  - destruct (String.eqb digits "") eqn:Hd.
    + apply String.eqb_eq in Hd. rewrite Hd. reflexivity.
    + destruct (startswith digits "0" && (len digits =? 10)%nat) eqn:Hnat.
      * apply andb_prop in Hnat as [H0 _]. rewrite (startswith_zero_380 _ H0). reflexivity.
      * destruct (startswith digits "380"); [reflexivity|]. rewrite Hd. reflexivity.
Qed.

(** The inputs named by the specification. *)
Example sanitize_phone_national : sanitize_phone (Some "0501234567") = Some "380501234567".
Proof. reflexivity. Qed.
Example sanitize_phone_plus : sanitize_phone (Some "+380501234567") = Some "380501234567".
Proof. reflexivity. Qed.
Example sanitize_phone_country : sanitize_phone (Some "380501234567") = Some "380501234567".
Proof. reflexivity. Qed.
Example sanitize_phone_letters : sanitize_phone (Some "tel: 050-123-45-67") = Some "380501234567".
Proof. reflexivity. Qed.

(** Digits of another script are digits too: ten of them are returned as
    they are, since none is the ASCII zero; after an ASCII zero they are
    prefixed. *)
Example sanitize_phone_arabic_indic :
  sanitize_phone (Some "٠٥٠١٢٣٤٥٦٧") = Some "٠٥٠١٢٣٤٥٦٧"
  /\ sanitize_phone (Some "0٥٠١٢٣٤٥٦٧") = Some "380٥٠١٢٣٤٥٦٧"
  /\ sanitize_phone (Some "+٣٨ (٠٥٠)") = Some "٣٨٠٥٠".
Proof. repeat split; vm_compute; reflexivity. Qed.

(** C8 as stated fails where the input has no digit: the empty digit string
    is not passed through, the result is [None]. *)
Lemma sanitize_phone_no_digits :
  digits_only "abc" = "" /\ sanitize_phone (Some "abc") <> Some (digits_only "abc").
Proof. split; [reflexivity|]. vm_compute. discriminate. Qed.

(** C9 at the failing input: the text "nan" is accepted as an hour count. *)
Theorem parse_hours_accepts_nan :
  parse_hours (Some "nan") = Some nan /\ parse_hours (Some "inf") = Some infinity.
Proof. split; vm_compute; reflexivity. Qed.

(** What does hold of [parse_hours]: the comma is read as the point, a value
    below zero and a text [float] rejects are invalid. *)
Lemma replace_char_idem a b s :
  a <> b -> replace_char a b (replace_char a b s) = replace_char a b s.
Proof.
  intros Hab. induction s as [|c s IH]; simpl; [reflexivity|]. rewrite IH. f_equal.
  destruct (Ascii.eqb c a) eqn:Hc; [|rewrite Hc; reflexivity].
  destruct (Ascii.eqb b a) eqn:Hb; [|reflexivity].
  apply Ascii.eqb_eq in Hb. congruence.
Qed.

Lemma parse_hours_comma_is_point s :
  parse_hours (Some (replace_char "," "." s)) = parse_hours (Some s).
Proof. unfold parse_hours. rewrite replace_char_idem by discriminate. reflexivity. Qed.

Lemma parse_hours_rejects s :
  float_of_string (strip (replace_char "," "." s)) = None -> parse_hours (Some s) = None.
Proof. unfold parse_hours. intros ->. reflexivity. Qed.

Lemma parse_hours_below_zero s v :
  float_of_string (strip (replace_char "," "." s)) = Some v -> PrimFloat.ltb v 0 = true ->
  parse_hours (Some s) = None.
Proof. unfold parse_hours. intros -> ->. reflexivity. Qed.

Example parse_hours_examples :
  parse_hours (Some "7,5") = Some 7.5%float /\ parse_hours (Some "7.5") = Some 7.5%float
  /\ parse_hours (Some "8") = Some 8%float /\ parse_hours (Some "-1") = None
  /\ parse_hours (Some "abc") = None /\ parse_hours (Some "") = None.
Proof. repeat split; vm_compute; reflexivity. Qed.

End ParsingFacts.

(** ** Malformed rows *)

Section MalformedRows.
Context `{FloatRepr}.

Lemma unparseable_parse_int v : unparseable v -> parse_int v = Ok None.
Proof. unfold parse_int. intros [Hv | Hv]; rewrite Hv; reflexivity. Qed.

Lemma unparseable_parse_float v : unparseable v -> parse_float v = Ok 0%float.
Proof. unfold parse_float. intros [Hv | Hv]; rewrite Hv; reflexivity. Qed.

(** C7 (amended). Reading the shift sheet does not fail on a cell of the id,
    date or hour columns that does not parse: when the text columns of every
    row hold text and no numeric cell is beyond the float range ([row_ok]),
    [_fetch_shift_records] returns one record per row, and a cell that does
    not parse is replaced by a default: 0 for the id, today for the date,
    0.0 for the hours. *)
Theorem malformed_cells_get_defaults today st :
  forallb row_ok (shifts st) = true ->
  exists records,
    _fetch_shift_records today st = (Ok records, st)
    /\ length records = length (shifts st)
    /\ forall i row, shifts st !! i = Some row ->
         exists r, records !! i = Some r
           /\ (unparseable (c_id row) -> shift_id r = 0)
           /\ (parse_date (c_date row) = None -> shift_date r = today)
           /\ (unparseable (c_hours row) -> shift_hours r = 0%float)
           /\ (unparseable (c_overtime row) -> overtime_hours r = 0%float).
Proof.
  intros Hok. exists (records_of_rows today 2 (shifts st)).
  split; [rewrite _fetch_shift_records_eq, (shifts_of_rows_ok _ _ _ Hok); reflexivity|].
  split; [apply length_imap|].
  intros i row Hi. exists (record_of_row today (2 + Z.of_nat i) row).
  split; [unfold records_of_rows; rewrite list_lookup_imap, Hi; reflexivity|].
  simpl. repeat split.
  - intros Hid. unfold row_shift_id. rewrite (unparseable_parse_int _ Hid). reflexivity.
  - intros ->. reflexivity.
  - intros Hh. rewrite (unparseable_parse_float _ Hh). reflexivity.
  - intros Hh. rewrite (unparseable_parse_float _ Hh). reflexivity.
Qed.

(** The read fails exactly when some row is not [row_ok]. *)
Lemma fetch_ok_iff today st :
  is_ok (_fetch_shift_records today st).1 = forallb row_ok (shifts st).
Proof.
  rewrite _fetch_shift_records_eq. simpl.
  destruct (shifts_of_rows today 2 (shifts st)) as [rs|e] eqn:Hrows.
  - apply shifts_of_rows_inv in Hrows as [-> _]. reflexivity.
  - destruct (forallb row_ok (shifts st)) eqn:Hok; [|reflexivity].
    rewrite (shifts_of_rows_ok _ _ _ Hok) in Hrows. discriminate.
Qed.

End MalformedRows.

(** ** Conversation handlers *)

Section HandlerFacts.
Context `{FloatRepr}.

Ltac runH := unfold mbind, mret, H_bind, H_ret, liftR, answer, send, get_employee,
               state_clear, set_state, update_data, get_data; simpl.

Lemma ensure_authorized_known message w employee :
  users w !! from_user message = Some employee ->
  ensure_authorized message w = (Ok (Some employee), w).
Proof. intros Hu. unfold ensure_authorized. runH. rewrite Hu. reflexivity. Qed.

Lemma ensure_authorized_unknown message w :
  users w !! from_user message = None ->
  ensure_authorized message w =
    (Ok None,
     mkWorld (users w) (ctx w) (store w)
       (outbox w ++ [Answer "Спочатку авторизуйся, поділившись номером."
                        (Some share_contact_keyboard)])).
Proof. intros Hu. unfold ensure_authorized. runH. rewrite Hu. reflexivity. Qed.

(** Starting a submission keeps every field of the form data but the two it sets. *)
Lemma request_shift_date_keeps_data message w employee key :
  users w !! from_user message = Some employee ->
  key <> "employee_name" -> key <> "manager" ->
  fsm_data (ctx (request_shift_date message w).2) !! key = fsm_data (ctx w) !! key.
Proof.
  intros Hu Hk1 Hk2. unfold request_shift_date. unfold mbind at 1, H_bind at 1.
  rewrite (ensure_authorized_known _ _ _ Hu). runH.
  rewrite !lookup_insert_ne by congruence. reflexivity.
Qed.

(** Starting an edit discards the form data. *)
Lemma start_editing_shift_clears today message w employee :
  users w !! from_user message = Some employee ->
  fsm_data (ctx (start_editing_shift today message w).2) = ∅.
Proof.
  intros Hu. unfold start_editing_shift. unfold mbind at 1, H_bind at 1.
  rewrite (ensure_authorized_known _ _ _ Hu). runH. unfold sheets. simpl.
  destruct (get_employee_shifts _ _ _ _ _) as [[[|r rs]|e] st']; reflexivity.
Qed.

(** The authorization gate where it works as specified: an edit completed
    by a session without employee is cleared and refused, and nothing is
    written. *)
Lemma finalize_shift_edit_unauthorized today now message w :
  users w !! from_user message = None ->
  finalize_shift_edit today now message w =
    (Ok tt,
     mkWorld (users w) (mkFSM None ∅) (store w)
       (outbox w ++ [Answer "Спочатку авторизуйся, поділившись номером."
                        (Some share_contact_keyboard)])).
Proof.
  intros Hu. unfold finalize_shift_edit. unfold mbind at 1, H_bind at 1.
  rewrite (ensure_authorized_unknown _ _ Hu). reflexivity.
Qed.

Lemma finalize_manager_decision_unauthorized today now message w :
  users w !! from_user message = None ->
  finalize_manager_decision today now message w =
    (Ok tt,
     mkWorld (users w) (mkFSM None ∅) (store w)
       (outbox w ++ [Answer "Спочатку авторизуйся, поділившись номером."
                        (Some share_contact_keyboard)])).
Proof.
  intros Hu. unfold finalize_manager_decision. unfold mbind at 1, H_bind at 1.
  rewrite (ensure_authorized_unknown _ _ Hu). reflexivity.
Qed.

(** Where it does not: a submission completed by a session without employee
    is refused, but the state and the form data stay; a decision completed
    by an employee who is no manager is cleared, but nothing is sent. *)
Lemma handle_shift_comment_unauthorized now message w :
  users w !! from_user message = None ->
  handle_shift_comment now message w =
    (Ok tt,
     mkWorld (users w) (ctx w) (store w)
       (outbox w ++ [Answer "Спочатку авторизуйся, поділившись номером."
                        (Some share_contact_keyboard)])).
Proof.
  intros Hu. unfold handle_shift_comment. unfold mbind at 1, H_bind at 1.
  unfold get_data at 1. unfold mbind at 1, H_bind at 1.
  rewrite (ensure_authorized_unknown _ _ Hu). reflexivity.
Qed.

Lemma finalize_manager_decision_not_manager today now message w employee :
  users w !! from_user message = Some employee -> is_manager employee = false ->
  finalize_manager_decision today now message w =
    (Ok tt, mkWorld (users w) (mkFSM None ∅) (store w) (outbox w)).
Proof.
  intros Hu Hm. unfold finalize_manager_decision. unfold mbind at 1, H_bind at 1.
  rewrite (ensure_authorized_known _ _ _ Hu), Hm. reflexivity.
Qed.

End HandlerFacts.

Section Examples.
Import Scenario.
#[local] Existing Instance repr_integral.

Example fetch_st0 : _fetch_shift_records today0 st0 = (Ok [record5; record6], st0).
Proof. vm_compute. reflexivity. Qed.

Example fetch_employees_st0 :
  _fetch_employees st0 = (Ok [bob; ann], st0).
Proof. vm_compute. reflexivity. Qed.

Lemma get_editable_shift_spec_witness :
  _fetch_shift_records today0 st0 = (Ok [record5; record6], st0) /\
  date_sub_days today0 7 = Ok (mkdate 2024 5 7) /\
  find (fun r => shift_id r =? 5) [record5; record6] = Some record5 /\
  get_editable_shift today0 "Bob" 5 7 st0 = (Ok (Some record5), st0).
Proof.
  split; [vm_compute; reflexivity|]. split; [vm_compute; reflexivity|].
  split; [vm_compute; reflexivity|].
  refine (get_editable_shift_spec today0 st0 "Bob" 5 7 [record5; record6]
            (mkdate 2024 5 7) record5 _ _ _);
    vm_compute; reflexivity.
Defined.

Lemma decide_shift_twice_witness :
  status record5 = SHIFT_STATUS_PENDING /\
  exists r1 st1 r2,
    update_shift_status today0 5 SHIFT_STATUS_APPROVED "Ann" "ok" now0 st0
      = (Ok (Some r1, true), st1)
    /\ status r1 = SHIFT_STATUS_APPROVED
    /\ update_shift_status (mkdate 2024 5 15) 5 SHIFT_STATUS_DECLINED "Ann" "no" now0 st1
       = (Ok (Some r2, false), st1)
    /\ status r2 = SHIFT_STATUS_APPROVED /\ shift_id r2 = 5.
Proof.
  split; [reflexivity|].
  refine (decide_shift_twice today0 (mkdate 2024 5 15) st0 5 SHIFT_STATUS_APPROVED "Ann" "ok"
            now0 SHIFT_STATUS_DECLINED "Ann" "no" now0 [record5; record6] record5
            [bob; ann] 1 _ _ _ _ _ _);
    try (vm_compute; reflexivity).
  left. reflexivity.
Defined.

(** The example of the specification: 8 hours and 2 of overtime at the rates
    100 and 150 accrue 800, 300 and 1100. *)
Lemma approval_appends_one_accrual_witness :
  find (fun e => String.eqb (name e) "Bob")
       [bob; ann] = Some bob /\
  _next_id ACCRUALS_SHEET st0 = (Ok 1, st0) /\
  exists updated rows,
    update_shift_status today0 5 SHIFT_STATUS_APPROVED "Ann" "ok" now0 st0 =
      (Ok (Some updated, true),
       mkStore (employees st0) rows
         [mkAccrualRow (VInt 1) (VStr "Bob") (VStr "12.05.2024") (VFloat 2)
            (VFloat 100) (VFloat 150) (VFloat 800) (VFloat 300) (VFloat 1100)]).
Proof.
  split; [vm_compute; reflexivity|]. split; [vm_compute; reflexivity|].
  eexists _, _.
  exact (approval_appends_one_accrual today0 st0 5 "Ann" "ok" now0 [record5; record6] record5
           [bob; ann]
           fetch_st0 eq_refl eq_refl fetch_employees_st0 1 eq_refl).
Defined.

Lemma update_shift_details_frame_witness :
  (update_shift_details today0 5 "Bob" edit5 7 st0).1 = Ok true /\
  exists i row row',
    shifts st0 !! i = Some row /\ row_shift_id row = 5
    /\ shifts (update_shift_details today0 5 "Bob" edit5 7 st0).2 !! i = Some row'
    /\ c_id row' = c_id row /\ c_status row' = c_status row.
Proof.
  split; [vm_compute; reflexivity|].
  destruct (update_shift_details_frame today0 st0 5 "Bob" edit5 7
              (update_shift_details today0 5 "Bob" edit5 7 st0).2)
    as (i & row & row' & H1 & H2 & H3 & _ & _ & _ & _ & _ & H4 & _ & H5 & _).
  - vm_compute. reflexivity.
  - exists i, row, row'. repeat split; assumption.
Defined.

(** C7 as stated fails on [malformed_row]: the read returns a record, with
    0 for the id, today for the date and 0.0 for the hours, and no error. *)
Lemma malformed_row_is_read :
  unparseable (c_id malformed_row) /\ parse_date (c_date malformed_row) = None
  /\ unparseable (c_hours malformed_row)
  /\ _fetch_shift_records today0 malformed_store =
       (Ok [mkShiftRecord 2 0 "Bob" today0 0 0 "" None "Очікує" None (Some "") None],
        malformed_store).
Proof. repeat split; try (left; vm_compute; reflexivity); vm_compute; reflexivity. Qed.

Lemma malformed_cells_get_defaults_witness :
  forallb row_ok (shifts malformed_store) = true /\
  exists records,
    _fetch_shift_records today0 malformed_store = (Ok records, malformed_store)
    /\ length records = 1%nat
    /\ exists r, records !! 0%nat = Some r /\ shift_id r = 0 /\ shift_date r = today0
                 /\ shift_hours r = 0%float /\ overtime_hours r = 0%float.
Proof.
  split; [vm_compute; reflexivity|].
  destruct (malformed_cells_get_defaults today0 malformed_store) as (records & Hf & Hl & Hrec).
  - vm_compute. reflexivity.
  - exists records. split; [exact Hf|]. split; [exact Hl|].
    destruct (Hrec 0%nat malformed_row eq_refl) as (r & Hr & Hid & Hd & Hh & Ho).
    exists r. split; [exact Hr|].
    split; [apply Hid; left; vm_compute; reflexivity|].
    split; [apply Hd; vm_compute; reflexivity|].
    split; [apply Hh; left; vm_compute; reflexivity|apply Ho; left; vm_compute; reflexivity].
Defined.

(** C3 at the failing inputs.  Bob has selected shift 5 for editing and then
    starts a submission: the fields of the edit are still in the form data.
    Ann has a submission in progress and presses a decision button: the
    fields of the submission are still in the form data. *)
Theorem new_flow_keeps_previous_fields :
  fsm_state (ctx w_edit_selected) = Some ShiftEdit_date
  /\ fsm_data (ctx w_edit_selected) !! "edit_shift_id" = Some (VInt 5)
  /\ fsm_state (ctx w_submission_started) = Some ShiftForm_date
  /\ fsm_data (ctx w_submission_started) !! "edit_shift_id" = Some (VInt 5)
  /\ fsm_data (ctx w_submission_started) !! "previous_shift_hours" = Some (VFloat 8)
  /\ fsm_state (ctx w_ann_decision) = Some ManagerComment_comment
  /\ fsm_data (ctx w_ann_decision) !! "shift_date" = Some (VStr "2024-05-13").
Proof. repeat split; vm_compute; reflexivity. Qed.

(** C4 at the failing inputs.  A submission completed by a user who is not
    in the registry is refused, but the state and the form data are kept.
    A decision completed by Bob, who is no manager, is cleared, but no
    reply is sent. *)
Theorem authorization_failure_not_as_specified :
  users w_anonymous_comment !! 99 = None
  /\ handle_shift_comment now0 (mkMessage 99 (Some "done")) w_anonymous_comment =
       (Ok tt,
        mkWorld registry0 (ctx w_anonymous_comment) st0
          [Answer "Спочатку авторизуйся, поділившись номером." (Some share_contact_keyboard)])
  /\ fsm_state (ctx w_anonymous_comment) = Some ShiftForm_comment
  /\ users w_staff_decision !! 7 = Some bob /\ is_manager bob = false
  /\ finalize_manager_decision today0 now0 (mkMessage 7 (Some "ok")) w_staff_decision =
       (Ok tt, mkWorld registry0 (mkFSM None ∅) st0 []).
Proof. repeat split; vm_compute; reflexivity. Qed.

(** C6 as stated fails on [new_shift]: the shift gets id 7 and is listed, but
    no listed record carries the submission time of the input (the sheet
    keeps 09:30 without seconds and zone), nor its comment. *)
Lemma appended_shift_differs_from_input :
  exists st1 records,
    append_shift new_shift st0 = (Ok 7, st1)
    /\ get_employee_shifts today0 "Bob" None false st1 = (Ok records, st1)
    /\ forall r, In r records ->
         submitted_at r <> Some (in_submitted_at new_shift)
         /\ comment r <> in_comment new_shift.
Proof.
  eexists _, _. split; [vm_compute; reflexivity|]. split; [vm_compute; reflexivity|].
  intros r Hr. simpl in Hr.
  destruct Hr as [<-|[<-|[<-|[]]]]; split; discriminate.
Qed.

(** Why the amended statement bounds the id and strips the name: an id
    beyond 2^53 is read back through [float], and a name with white space
    around it is stored as it is but read back without. *)
Example id_beyond_float_is_rounded : parse_int (VInt (2 ^ 53 + 1)) = Ok (Some (2 ^ 53)).
Proof. vm_compute. reflexivity. Qed.

Example padded_name_is_not_listed :
  exists st1,
    append_shift (mkShiftInput " Bob" (mkdate 2024 5 13) 8 0 "" (to_minute now0) None) st0
      = (Ok 7, st1)
    /\ get_employee_shifts today0 " Bob" None false st1 = (Ok [], st1).
Proof. eexists. split; [vm_compute; reflexivity|]. vm_compute. reflexivity. Qed.

Lemma append_shift_then_list_witness :
  forallb row_ok (shifts st0) = true
  /\ valid_date (in_shift_date new_shift) = true
  /\ valid_time (in_submitted_at new_shift) = true
  /\ exists next_id,
       [5; 6] = parseable_ids (map (fun v => VStr (py_str v)) (map c_id (shifts st0)))
       /\ is_next_id [5; 6] next_id
       /\ let st1 := mkStore (employees st0) (shifts st0 ++ [row_of_input next_id new_shift])
                       (accruals st0) in
          append_shift new_shift st0 = (Ok next_id, st1)
          /\ (- 2 ^ 53 < next_id < 2 ^ 53 ->
              exists records,
                get_employee_shifts today0 (strip "Bob") None false st1 = (Ok records, st1)
                /\ In (record_of_input (2 + Z.of_nat (length (shifts st0))) next_id new_shift)
                     records).
Proof.
  split; [vm_compute; reflexivity|]. split; [vm_compute; reflexivity|].
  split; [vm_compute; reflexivity|].
  apply (append_shift_then_list today0 st0 new_shift [5; 6]);
    try (vm_compute; reflexivity).
  vm_compute. discriminate.
Defined.

End Examples.
